(** * Excel / CSV to GeoJSON converter: a shallow embedding of [app.py]

    The development follows the geometry pipeline of [app.py]:
    [make_gdf_from_xy], [make_gdf_from_wkt], the reprojection step of the
    script body and [to_geojson_bytes].  The pandas, geopandas, shapely,
    pyproj and json calls the script makes are modelled next to the
    functions that use them, as pure functions that return a value or
    raise.  The parts of those libraries that are data (numeric literal
    syntax, the WKT grammar, the EPSG registry, the geodetic
    transformations, the shortest repr of a float) are the fields of the
    class [Backend]; every statement holds for every backend, and the
    module [Sample] has a small one to run the pipeline on.

    A table holds text, integers, floats, [None] and geometry objects;
    booleans and dates, which the readers can also produce, are left out.
    Geometries are the two-dimensional ones of the six simple types. *)

From Stdlib Require Import ZArith NArith List Bool Ascii String Lia.
From Stdlib Require Import Floats.SpecFloat.
From Stdlib Require Import DecimalString.
Import ListNotations.

Local Open Scope Z_scope.

Set Warnings "-register-all".

(** ** Python strings *)

(** A Python [str] is a sequence of Unicode code points. *)
Definition pystr := list N.

(** Literals of the script are written as Rocq strings of ASCII
    characters. *)
Definition py (s : string) : pystr :=
  map N_of_ascii (list_ascii_of_string s).

Fixpoint pystr_eqb (a b : pystr) : bool :=
  match a, b with
  | [], [] => true
  | x :: a', y :: b' => N.eqb x y && pystr_eqb a' b'
  | _, _ => false
  end.

(** [c in cols] on a list of column labels. *)
Definition contains (c : pystr) (cols : list pystr) : bool :=
  existsb (pystr_eqb c) cols.

(** [str(n)] for an integer. *)
Definition str_of_Z (z : Z) : pystr :=
  py (NilZero.string_of_int (Z.to_int z)).

(** ** Floats *)

(** A Python [float] is an IEEE 754 binary64 value. *)
Definition float := spec_float.

Definition nan : float := S754_nan.

Definition isnan (f : float) : bool :=
  match f with S754_nan => true | _ => false end.



(** [float(z)] of an int64: the nearest binary64, ties to even. *)
Definition float_of_Z (z : Z) : float := binary_normalize 53 1024 z 0 false.

(** ** Geometries (shapely) *)

Definition coord := (float * float)%type.

Inductive geometry :=
| Point (c : coord)
| LineString (cs : list coord)
| Polygon (rings : list (list coord))
| MultiPoint (cs : list coord)
| MultiLineString (ls : list (list coord))
| MultiPolygon (ps : list (list (list coord))).

(** ** Exceptions and results *)

(** The exceptions of the calls below; [WKTReadingError] stands for the
    exception of shapely's WKT reader, [CRSError] is pyproj's. *)
Inductive exception :=
| ValueError (msg : pystr)
| TypeError (msg : pystr)
| WKTReadingError (text : pystr)
| CRSError (epsg : Z)
| UnicodeEncodeError (codepoint : N).

Inductive result (A : Type) :=
| Ok (a : A)
| Raise (e : exception).

Arguments Ok {A} a.
Arguments Raise {A} e.

Definition bind {A B} (r : result A) (k : A -> result B) : result B :=
  match r with
  | Ok a => k a
  | Raise e => Raise e
  end.

Notation "x <- r ;; k" := (bind r (fun x => k))
  (at level 61, r at next level, right associativity).

(** Run [f] on the elements of a list from left to right and stop at the
    first exception. *)
Fixpoint mapM {A B} (f : A -> result B) (l : list A) : result (list B) :=
  match l with
  | [] => Ok []
  | a :: l' =>
      b <- f a ;;
      bs <- mapM f l' ;;
      Ok (b :: bs)
  end.

(** ** Tables (pandas) *)

(** A value held by one cell of a [DataFrame]: text, an integer, a float
    (NaN is the missing marker of numeric columns), [None], or, for the
    scratch column of [make_gdf_from_wkt], a shapely geometry. *)
Inductive cell :=
| CStr (s : pystr)
| CInt (z : Z)
| CFloat (f : float)
| CNone
| CGeom (g : geometry).

(** One row: its index label and its cells in column order. *)
Record Row := mkRow {
  label : Z;
  cells : list (pystr * cell)
}.

Record DataFrame := mkDF {
  columns : list pystr;
  rows : list Row
}.

(** The tables pandas builds: column labels are unique (the readers mangle
    duplicated headers) and every row has one cell per column. *)
Definition wf_df (df : DataFrame) : Prop :=
  NoDup (columns df) /\
  Forall (fun r => map fst (cells r) = columns df) (rows df).

(** [pd.isna] on a scalar. *)
Definition isna (c : cell) : bool :=
  match c with
  | CNone => true
  | CFloat f => isnan f
  | _ => false
  end.

Definition notna (c : cell) : bool := negb (isna c).

Fixpoint assoc_get (c : pystr) (kvs : list (pystr * cell)) : cell :=
  match kvs with
  | [] => CNone
  | (k, v) :: kvs' => if pystr_eqb k c then v else assoc_get c kvs'
  end.

(** Replace the value under [c], or append the pair when [c] is new. *)
Fixpoint assoc_set (c : pystr) (v : cell) (kvs : list (pystr * cell))
  : list (pystr * cell) :=
  match kvs with
  | [] => [(c, v)]
  | (k, w) :: kvs' =>
      if pystr_eqb k c then (k, v) :: kvs' else (k, w) :: assoc_set c v kvs'
  end.

Definition assoc_del (c : pystr) (kvs : list (pystr * cell))
  : list (pystr * cell) :=
  filter (fun kv => negb (pystr_eqb (fst kv) c)) kvs.

Definition row_get (c : pystr) (r : Row) : cell := assoc_get c (cells r).

(** [df[c]]: the values of column [c], one per row. *)
Definition getitem (df : DataFrame) (c : pystr) : list cell :=
  map (row_get c) (rows df).

Fixpoint set_rows (c : pystr) (rs : list Row) (vals : list cell) : list Row :=
  match rs, vals with
  | r :: rs', v :: vals' =>
      mkRow (label r) (assoc_set c v (cells r)) :: set_rows c rs' vals'
  | _, _ => []
  end.

(** [df[c] = vals]: overwrite column [c] in place, or add it as the last
    column when the label is new. *)
Definition setitem (df : DataFrame) (c : pystr) (vals : list cell)
  : DataFrame :=
  mkDF (if contains c (columns df) then columns df else columns df ++ [c])
       (set_rows c (rows df) vals).

(** [df.dropna(subset=cols)]: keep the rows that have no missing value in
    any of the columns [cols]; labels and order are kept. *)
Definition dropna (df : DataFrame) (subset : list pystr) : DataFrame :=
  mkDF (columns df)
       (filter (fun r => forallb (fun c => notna (row_get c r)) subset)
               (rows df)).

(** [df.drop(columns=[c])]. *)
Definition drop_column (df : DataFrame) (c : pystr) : DataFrame :=
  mkDF (filter (fun k => negb (pystr_eqb k c)) (columns df))
       (map (fun r => mkRow (label r) (assoc_del c (cells r))) (rows df)).

(** [df.copy()]: the functions below work on a copy, so the caller's table
    is never written to; with immutable values the copy is the table. *)
Definition copy (df : DataFrame) : DataFrame := df.

(** ** External data of the libraries *)

(** The result of reading one numeric literal. *)
Inductive number :=
| NInt (z : Z)
| NFloat (f : float).

Definition is_int (n : number) : bool :=
  match n with NInt _ => true | NFloat _ => false end.

Definition number_float (n : number) : float :=
  match n with
  | NInt z => float_of_Z z
  | NFloat f => f
  end.

Definition cell_of_number (n : number) : cell :=
  match n with
  | NInt z => CInt z
  | NFloat f => CFloat f
  end.

(** The characters [' '] to ['~']. *)
Definition printable (n : N) : bool := (32 <=? n)%N && (n <=? 126)%N.

Class Backend := {
  (** pandas: the number a text cell denotes, [None] when it is not a
      numeric literal *)
  str_to_number : pystr -> option number;
  (** shapely: [wkt.loads] on a string, [None] when the reader raises *)
  wkt_loads : pystr -> option geometry;
  (** pyproj: whether the registry has a CRS for [EPSG:<code>] *)
  epsg_known : Z -> bool;
  (** pyproj: the forward transformation of one coordinate pair from the
      first CRS to the second *)
  transform : Z -> Z -> coord -> coord;
  (** Python: [float.__repr__] of a finite float *)
  float_repr : float -> pystr
}.

(** ** Geometry collections (geopandas) *)

(** A [GeoDataFrame] is held as its rows, each with the index label, the
    cells of the property columns (every column but the active geometry
    column ["geometry"]) and the geometry, which may be missing; the CRS
    is the EPSG code of the tag. *)
Record Feature := mkFeature {
  fid : Z;
  properties : list (pystr * cell);
  geom : option geometry
}.

Record GeoDataFrame := mkGDF {
  property_columns : list pystr;
  features : list Feature;
  crs : Z
}.

Section Pipeline.

Context {lib : Backend}.

(** *** [pd.to_numeric(col, errors="coerce")] *)

(** What one cell becomes: numbers stay, text is read as a numeric literal,
    anything that is not a number becomes NaN. *)
Definition coerce_cell (c : cell) : number :=
  match c with
  | CInt z => NInt z
  | CFloat f => NFloat f
  | CStr s =>
      match str_to_number s with
      | Some n => n
      | None => NFloat nan
      end
  | CNone => NFloat nan
  | CGeom _ => NFloat nan
  end.

(** The column stays integer when every value is one; one float or NaN
    makes it a float64 column. *)
Definition to_numeric (col : list cell) : list cell :=
  let ns := map coerce_cell col in
  if forallb is_int ns then map cell_of_number ns
  else map (fun n => CFloat (number_float n)) ns.

(** *** [gpd.points_from_xy(xs, ys)] *)

(** [np.asarray(col, dtype="float64")] on one value.  Only columns that
    [to_numeric] wrote reach this call, so the last two cases do not
    occur ([coercion_as_float64]); numpy's own reading of text is not
    part of the model. *)
Definition as_float64 (c : cell) : result float :=
  match c with
  | CInt z => Ok (float_of_Z z)
  | CFloat f => Ok f
  | CNone => Ok nan
  | CStr s => Raise (ValueError (py "could not convert string to float"))
  | CGeom _ => Raise (TypeError (py "float() argument must be a string or a real number"))
  end.

Fixpoint points_from_xy (xs ys : list cell) : result (list cell) :=
  match xs, ys with
  | x :: xs', y :: ys' =>
      fx <- as_float64 x ;;
      fy <- as_float64 y ;;
      ps <- points_from_xy xs' ys' ;;
      Ok (CGeom (Point (fx, fy)) :: ps)
  | [], [] => Ok []
  | _, _ => Raise (ValueError (py "x and y arrays must be equal length."))
  end.

(** *** [gpd.GeoDataFrame(df, geometry=..., crs=f"EPSG:{epsg}")] *)

(** Each element of the geometry argument must be a geometry or missing. *)
Definition from_shapely_item (c : cell) : result (option geometry) :=
  match c with
  | CGeom g => Ok (Some g)
  | CNone => Ok None
  | CFloat f =>
      if isnan f then Ok None
      else Raise (TypeError (py "Input must be valid geometry objects"))
  | _ => Raise (TypeError (py "Input must be valid geometry objects"))
  end.

(** [pyproj.CRS.from_user_input(f"EPSG:{epsg}")]: the tag is looked up in
    the registry when it is made. *)
Definition CRS_from_epsg (epsg : Z) : result Z :=
  if epsg_known epsg then Ok epsg else Raise (CRSError epsg).

Fixpoint attach (rs : list Row) (gs : list (option geometry)) : list Feature :=
  match rs, gs with
  | r :: rs', g :: gs' =>
      mkFeature (label r) (assoc_del (py "geometry") (cells r)) g
      :: attach rs' gs'
  | _, _ => []
  end.

(** The geometries are stored as the column ["geometry"], which replaces a
    column of that name if the table has one; then the CRS tag is set. *)
Definition GeoDataFrame_new (df : DataFrame) (geometry : list cell)
    (epsg : Z) : result GeoDataFrame :=
  gs <- mapM from_shapely_item geometry ;;
  tag <- CRS_from_epsg epsg ;;
  Ok (mkGDF (filter (fun k => negb (pystr_eqb k (py "geometry"))) (columns df))
            (attach (rows df) gs)
            tag).

(** *** The two builders of [app.py] *)

Definition make_gdf_from_xy (df : DataFrame) (x_col y_col : pystr)
    (epsg_in : Z) : result GeoDataFrame :=
  if negb (contains x_col (columns df)) || negb (contains y_col (columns df))
  then Raise (ValueError (py "Selected X or Y column not found in the table."))
  else
    let df := copy df in
    let df := setitem df x_col (to_numeric (getitem df x_col)) in
    let df := setitem df y_col (to_numeric (getitem df y_col)) in
    let df := dropna df [x_col; y_col] in
    points <- points_from_xy (getitem df x_col) (getitem df y_col) ;;
    GeoDataFrame_new df points epsg_in.

(** [lambda s: wkt.loads(s) if pd.notna(s) else None]: the reader raises
    on text that is not WKT and on a value that is not text. *)
Definition load_wkt_cell (s : cell) : result cell :=
  if notna s then
    match s with
    | CStr t =>
        match wkt_loads t with
        | Some g => Ok (CGeom g)
        | None => Raise (WKTReadingError t)
        end
    | _ => Raise (TypeError (py "Expected bytes or string"))
    end
  else Ok CNone.

Definition make_gdf_from_wkt (df : DataFrame) (wkt_col : pystr)
    (epsg_in : Z) : result GeoDataFrame :=
  if negb (contains wkt_col (columns df))
  then Raise (ValueError (py "WKT column '" ++ wkt_col ++ py "' not found."))
  else
    let df := copy df in
    parsed <- mapM load_wkt_cell (getitem df wkt_col) ;;
    let df := setitem df (py "__geom__") parsed in
    let df := dropna df [py "__geom__"] in
    GeoDataFrame_new (drop_column df (py "__geom__"))
                     (getitem df (py "__geom__")) epsg_in.

(** *** Reprojection *)

Definition map_coords (f : coord -> coord) (g : geometry) : geometry :=
  match g with
  | Point c => Point (f c)
  | LineString cs => LineString (map f cs)
  | Polygon rings => Polygon (map (map f) rings)
  | MultiPoint cs => MultiPoint (map f cs)
  | MultiLineString ls => MultiLineString (map (map f) ls)
  | MultiPolygon ps => MultiPolygon (map (map (map f)) ps)
  end.

(** [gdf.to_crs(epsg=code)]: the target is looked up first; a collection
    already in the target CRS is returned as it is, otherwise every
    coordinate of every geometry is transformed and the tag replaced. *)
Definition to_crs (gdf : GeoDataFrame) (epsg : Z) : result GeoDataFrame :=
  target <- CRS_from_epsg epsg ;;
  if crs gdf =? target then Ok gdf
  else
    Ok (mkGDF (property_columns gdf)
              (map (fun f =>
                      mkFeature (fid f) (properties f)
                        (option_map (map_coords (transform (crs gdf) target))
                                    (geom f)))
                   (features gdf))
              target).

(** The step of the script body: [if epsg_in != epsg_out: gdf =
    gdf.to_crs(epsg=epsg_out)]. *)
Definition reproject (gdf : GeoDataFrame) (epsg_in epsg_out : Z)
  : result GeoDataFrame :=
  if negb (epsg_in =? epsg_out) then to_crs gdf epsg_out else Ok gdf.

(** *** [json.dumps] *)

(** The Python objects [to_json] hands to [json.dumps]; tuples are
    written as lists, as [json] does. *)
Inductive pyval :=
| PNone
| PInt (z : Z)
| PFloat (f : float)
| PStr (s : pystr)
| PList (items : list pyval)
| PDict (items : list (pystr * pyval))
| PGeom (g : geometry).

Fixpoint join (sep : pystr) (parts : list pystr) : pystr :=
  match parts with
  | [] => []
  | [p] => p
  | p :: rest => p ++ sep ++ join sep rest
  end.

Definition hex_digit (n : N) : N :=
  if (n <? 10)%N then (48 + n)%N else (87 + n)%N.

(** ['\\u{0:04x}'.format(n)] *)
Definition u_escape (n : N) : pystr :=
  [92; 117;
   hex_digit (n / 4096 mod 16); hex_digit (n / 256 mod 16);
   hex_digit (n / 16 mod 16); hex_digit (n mod 16)]%N.

(** One character under [ensure_ascii=True]: the quote, the backslash and
    everything outside [' '..'~'] are escaped, code points above the BMP
    as a surrogate pair. *)
Definition escape_char (n : N) : pystr :=
  if (n =? 34)%N then [92; 34]%N
  else if (n =? 92)%N then [92; 92]%N
  else if (n =? 8)%N then py "\b"
  else if (n =? 12)%N then py "\f"
  else if (n =? 10)%N then py "\n"
  else if (n =? 13)%N then py "\r"
  else if (n =? 9)%N then py "\t"
  else if printable n then [n]
  else if (n <? 65536)%N then u_escape n
  else
    let m := (n - 65536)%N in
    u_escape (N.lor 55296 (N.land (N.shiftr m 10) 1023))
    ++ u_escape (N.lor 56320 (N.land m 1023)).

Definition encode_basestring_ascii (s : pystr) : pystr :=
  [34%N] ++ flat_map escape_char s ++ [34%N].

(** [float.__repr__] except for the three values [json] spells itself
    ([allow_nan] is on by default). *)
Definition floatstr (f : float) : pystr :=
  match f with
  | S754_nan => py "NaN"
  | S754_infinity false => py "Infinity"
  | S754_infinity true => py "-Infinity"
  | _ => float_repr f
  end.

Fixpoint json_dumps (v : pyval) : result pystr :=
  match v with
  | PNone => Ok (py "null")
  | PInt z => Ok (str_of_Z z)
  | PFloat f => Ok (floatstr f)
  | PStr s => Ok (encode_basestring_ascii s)
  | PList items =>
      texts <- (fix go (l : list pyval) : result (list pystr) :=
                  match l with
                  | [] => Ok []
                  | x :: l' =>
                      t <- json_dumps x ;;
                      ts <- go l' ;;
                      Ok (t :: ts)
                  end) items ;;
      Ok (py "[" ++ join (py ", ") texts ++ py "]")
  | PDict items =>
      texts <- (fix go (l : list (pystr * pyval)) : result (list pystr) :=
                  match l with
                  | [] => Ok []
                  | (k, x) :: l' =>
                      t <- json_dumps x ;;
                      ts <- go l' ;;
                      Ok ((encode_basestring_ascii k ++ py ": " ++ t) :: ts)
                  end) items ;;
      Ok (py "{" ++ join (py ", ") texts ++ py "}")
  | PGeom _ => Raise (TypeError (py "Object is not JSON serializable"))
  end.

(** *** [gdf.to_json(drop_id=True)] *)

Definition coord_value (c : coord) : pyval :=
  PList [PFloat (fst c); PFloat (snd c)].

Definition line_value (cs : list coord) : pyval :=
  PList (map coord_value cs).

Definition rings_value (rings : list (list coord)) : pyval :=
  PList (map line_value rings).

(** [shapely.geometry.mapping(g)] *)
Definition mapping (g : geometry) : pyval :=
  match g with
  | Point c =>
      PDict [(py "type", PStr (py "Point")); (py "coordinates", coord_value c)]
  | LineString cs =>
      PDict [(py "type", PStr (py "LineString"));
             (py "coordinates", line_value cs)]
  | Polygon rings =>
      PDict [(py "type", PStr (py "Polygon"));
             (py "coordinates", rings_value rings)]
  | MultiPoint cs =>
      PDict [(py "type", PStr (py "MultiPoint"));
             (py "coordinates", line_value cs)]
  | MultiLineString ls =>
      PDict [(py "type", PStr (py "MultiLineString"));
             (py "coordinates", rings_value ls)]
  | MultiPolygon ps =>
      PDict [(py "type", PStr (py "MultiPolygon"));
             (py "coordinates", PList (map rings_value ps))]
  end.

(** A property value with [na="null"]: a missing value ([pd.isna]) becomes
    [None]; every other cell keeps its Python value. *)
Definition property_value (c : cell) : pyval :=
  if isna c then PNone
  else
    match c with
    | CStr s => PStr s
    | CInt z => PInt z
    | CFloat f => PFloat f
    | CNone => PNone
    | CGeom g => PGeom g
    end.

(** One item of [iterfeatures(na="null", drop_id=True)]: no ["id"]. *)
Definition feature_dict (f : Feature) : pyval :=
  PDict [(py "type", PStr (py "Feature"));
         (py "properties",
          PDict (map (fun kv => (fst kv, property_value (snd kv)))
                     (properties f)));
         (py "geometry",
          match geom f with
          | Some g => mapping g
          | None => PNone
          end)].

Fixpoint has_duplicates (cols : list pystr) : bool :=
  match cols with
  | [] => false
  | c :: cols' => contains c cols' || has_duplicates cols'
  end.

(** A collection that is not in EPSG:4326 gets a ["crs"] member naming
    its CRS; the coordinates are written as they are. *)
Definition to_geo_dict (gdf : GeoDataFrame) : pyval :=
  PDict ([(py "type", PStr (py "FeatureCollection"));
          (py "features", PList (map feature_dict (features gdf)))]
         ++ (if crs gdf =? 4326 then []
             else [(py "crs",
                    PDict [(py "type", PStr (py "name"));
                           (py "properties",
                            PDict [(py "name",
                                    PStr (py "urn:ogc:def:crs:EPSG::"
                                          ++ str_of_Z (crs gdf)))])])])).

Definition to_json (gdf : GeoDataFrame) : result pystr :=
  if has_duplicates (property_columns gdf)
  then Raise (ValueError (py "GeoDataFrame cannot contain duplicated column names."))
  else json_dumps (to_geo_dict gdf).

(** *** [text.encode("utf-8")] *)

Definition bytes := list Byte.byte.

Definition byte_of_N (n : N) : Byte.byte :=
  match Byte.of_N n with
  | Some b => b
  | None => Byte.x00
  end.

Definition utf8_encode_char (n : N) : result bytes :=
  if (n <? 128)%N then Ok [byte_of_N n]
  else if (n <? 2048)%N then
    Ok [byte_of_N (192 + n / 64); byte_of_N (128 + n mod 64)]%N
  else if (55296 <=? n)%N && (n <=? 57343)%N then
    Raise (UnicodeEncodeError n)
  else if (n <? 65536)%N then
    Ok [byte_of_N (224 + n / 4096); byte_of_N (128 + n / 64 mod 64);
        byte_of_N (128 + n mod 64)]%N
  else
    Ok [byte_of_N (240 + n / 262144); byte_of_N (128 + n / 4096 mod 64);
        byte_of_N (128 + n / 64 mod 64); byte_of_N (128 + n mod 64)]%N.

Definition utf8_encode (text : pystr) : result bytes :=
  chunks <- mapM utf8_encode_char text ;;
  Ok (List.concat chunks).

(** *** [to_geojson_bytes] and the script body *)

Definition to_geojson_bytes (gdf : GeoDataFrame) : result bytes :=
  text <- to_json gdf ;;
  utf8_encode text.

Inductive geom_mode :=
| XYMode (x_col y_col : pystr)
| WKTMode (wkt_col : pystr).

Definition build (df : DataFrame) (mode : geom_mode) (epsg_in : Z)
  : result GeoDataFrame :=
  match mode with
  | XYMode x_col y_col => make_gdf_from_xy df x_col y_col epsg_in
  | WKTMode wkt_col => make_gdf_from_wkt df wkt_col epsg_in
  end.

(** From the pressed button to the bytes behind the download button. *)
Definition convert (df : DataFrame) (mode : geom_mode) (epsg_in epsg_out : Z)
  : result bytes :=
  gdf <- build df mode epsg_in ;;
  gdf <- reproject gdf epsg_in epsg_out ;;
  wgs84 <- to_crs gdf 4326 ;;
  to_geojson_bytes wgs84.

End Pipeline.

(** ** Vocabulary of the statements *)

(** Text with ['] standing for the double quote, to write JSON down. *)
Definition q (s : string) : pystr :=
  map (fun n => if (n =? 39)%N then 34%N else n) (py s).

(** One byte per character, for text of code points below 128. *)
Definition ascii_bytes (s : pystr) : bytes := map byte_of_N s.

Section Vocabulary.

Context {lib : Backend}.

(** The float [to_numeric] gives for a cell, and whether the coercion
    gave a number (NaN is what a failed coercion and a missing value
    both become). *)
Definition coerced (c : cell) : float := number_float (coerce_cell c).

Definition coercible (c : cell) : bool := negb (isnan (coerced c)).

Definition xy_ok (x_col y_col : pystr) (r : Row) : bool :=
  coercible (row_get x_col r) && coercible (row_get y_col r).

(** The geometry a cell of the WKT column denotes, if it is WKT text. *)
Definition parsed_geometry (c : cell) : option geometry :=
  match c with
  | CStr t => wkt_loads t
  | _ => None
  end.

Definition wkt_ok (wkt_col : pystr) (r : Row) : bool :=
  match parsed_geometry (row_get wkt_col r) with
  | Some _ => true
  | None => false
  end.

(** A cell of the WKT column that makes the reader raise. *)
Definition wkt_raises (c : cell) : bool :=
  match load_wkt_cell c with
  | Ok _ => false
  | Raise _ => true
  end.

(** The rows a build keeps. *)
Definition survives (mode : geom_mode) (r : Row) : bool :=
  match mode with
  | XYMode x_col y_col => xy_ok x_col y_col r
  | WKTMode wkt_col => wkt_ok wkt_col r
  end.

(** The columns the geometry is read from. *)
Definition source_columns (mode : geom_mode) : list pystr :=
  match mode with
  | XYMode x_col y_col => [x_col; y_col]
  | WKTMode wkt_col => [wkt_col]
  end.

(** The columns a build takes for itself: the geometry column of the
    result and, in WKT mode, the scratch column. *)
Definition reserved_columns (mode : geom_mode) : list pystr :=
  match mode with
  | XYMode _ _ => [py "geometry"]
  | WKTMode _ => [py "__geom__"; py "geometry"]
  end.

(** How [to_numeric] writes a column: each cell becomes its number,
    either as the number read or as its float. *)
Definition coercion (g : cell -> cell) : Prop :=
  forall c, g c = cell_of_number (coerce_cell c) \/ g c = CFloat (coerced c).

(** The row with the cell under [c] replaced by [g] of it. *)
Definition update_cell (c : pystr) (g : cell -> cell) (r : Row) : Row :=
  mkRow (label r) (assoc_set c (g (row_get c r)) (cells r)).

(** The point [make_gdf_from_xy] makes of a row, and the feature, when
    the two columns were written by [gx] and [gy]. *)
Definition xy_point (x_col y_col : pystr) (r : Row) : geometry :=
  Point (coerced (row_get x_col r), coerced (row_get y_col r)).

Definition xy_feature (x_col y_col : pystr) (gx gy : cell -> cell) (r : Row)
  : Feature :=
  mkFeature (label r)
    (assoc_del (py "geometry")
       (cells (update_cell y_col gy (update_cell x_col gx r))))
    (Some (xy_point x_col y_col r)).

(** The feature [make_gdf_from_wkt] makes of a row. *)
Definition wkt_feature (wkt_col : pystr) (r : Row) : Feature :=
  mkFeature (label r)
    (assoc_del (py "geometry") (assoc_del (py "__geom__") (cells r)))
    (parsed_geometry (row_get wkt_col r)).

(** What [load_wkt_cell] stores for a cell it accepts. *)
Definition loaded (c : cell) : cell :=
  match parsed_geometry c with
  | Some g => CGeom g
  | None => CNone
  end.

Definition without (c : pystr) (cols : list pystr) : list pystr :=
  filter (fun k => negb (pystr_eqb k c)) cols.

(** The reading of "the geometry-source columns are removed": no feature
    has a property under the label of a source column. *)
Definition sources_removed (mode : geom_mode) (gdf : GeoDataFrame) : Prop :=
  Forall (fun f => forall c, In c (source_columns mode) ->
                             ~ In c (map fst (properties f)))
         (features gdf).

(** How the property under [c] of a feature relates to the cell of the
    row it was built from: the x and y columns hold the coerced numbers,
    every other column holds the cell as it was. *)
Definition kept_value (mode : geom_mode) (c : pystr) (orig new : cell) : Prop :=
  match mode with
  | XYMode x_col y_col =>
      if contains c [x_col; y_col]
      then new = cell_of_number (coerce_cell orig) \/ new = CFloat (coerced orig)
      else new = orig
  | WKTMode _ => new = orig
  end.

Definition unreserved (mode : geom_mode) (cols : list pystr) : list pystr :=
  filter (fun c => negb (contains c (reserved_columns mode))) cols.


End Vocabulary.















(** ** The table of the script and a small backend for the examples *)

Definition COMMON_EPSG : list (pystr * Z) :=
  [(py "WGS84 (EPSG:4326)", 4326);
   (py "Web Mercator (EPSG:3857)", 3857);
   (py "CH LV95 (EPSG:2056)", 2056);
   (py "ETRS89 / LAEA Europe (EPSG:3035)", 3035)].

Module Sample.

(** The examples below run the pipeline on a backend that knows a small
    part of what the libraries know: plain decimal literals, the WKT of a
    point, the four codes of [COMMON_EPSG], and exact decimal output. *)

Definition digit_val (n : N) : option Z :=
  if (48 <=? n)%N && (n <=? 57)%N then Some (Z.of_N (n - 48)) else None.

Fixpoint read_digits (acc : Z) (count : nat) (s : pystr)
  : Z * nat * pystr :=
  match s with
  | c :: s' =>
      match digit_val c with
      | Some d => read_digits (10 * acc + d) (S count) s'
      | None => (acc, count, s)
      end
  | [] => (acc, count, s)
  end.

(** [-]digits[.digits] *)
Definition plain_decimal (s : pystr) : option number :=
  let '(neg, body) :=
    match s with
    | 45%N :: t => (true, t)
    | _ => (false, s)
    end in
  let '(ip, n1, rest) := read_digits 0 0 body in
  match n1, rest with
  | S _, [] => Some (NInt (if neg then - ip else ip))
  | S _, 46%N :: frac =>
      let '(m, n2, rest2) := read_digits ip 0 frac in
      match rest2 with
      | [] =>
          let v := SFdiv 53 1024 (float_of_Z m) (float_of_Z (10 ^ Z.of_nat n2)) in
          Some (NFloat (if neg then SFopp v else v))
      | _ => None
      end
  | _, _ => None
  end.

Fixpoint strip_prefix (p s : pystr) : option pystr :=
  match p, s with
  | [], _ => Some s
  | a :: p', b :: s' => if (a =? b)%N then strip_prefix p' s' else None
  | _, [] => None
  end.

Fixpoint split_at (sep : N) (s : pystr) : option (pystr * pystr) :=
  match s with
  | [] => None
  | c :: s' =>
      if (c =? sep)%N then Some ([], s')
      else
        match split_at sep s' with
        | Some (a, b) => Some (c :: a, b)
        | None => None
        end
  end.

(** [POINT (x y)] *)
Definition point_wkt (s : pystr) : option geometry :=
  match strip_prefix (py "POINT (") s with
  | Some body =>
      match split_at 32 body with
      | Some (xs, rest) =>
          match split_at 41 rest with
          | Some (ys, []) =>
              match plain_decimal xs, plain_decimal ys with
              | Some x, Some y => Some (Point (number_float x, number_float y))
              | _, _ => None
              end
          | _ => None
          end
      | None => None
      end
  | None => None
  end.

Definition common_epsg (code : Z) : bool :=
  existsb (fun entry => snd entry =? code) COMMON_EPSG.

(** A stand-in for a transformation: it moves every point east by one
    unit, so that a transformed collection can be told from its source. *)
Definition shift_east (src dst : Z) (c : coord) : coord :=
  (SFadd 53 1024 (fst c) (float_of_Z 1), snd c).

Fixpoint strip_zeros (rev_digits : pystr) : pystr :=
  match rev_digits with
  | 48%N :: rest => strip_zeros rest
  | _ => rev_digits
  end.

(** The exact decimal expansion of [m * 2^e]; Python prints the shortest
    digits that read back to the same float, which may be fewer. *)
Definition exact_repr (f : float) : pystr :=
  match f with
  | S754_zero s => (if s then py "-" else []) ++ py "0.0"
  | S754_finite s m e =>
      (if s then py "-" else []) ++
      (if 0 <=? e then str_of_Z (Zpos m * 2 ^ e) ++ py ".0"
       else
         let k := - e in
         let frac := (Zpos m mod 2 ^ k) * 5 ^ k in
         let digits := tl (str_of_Z (10 ^ k + frac)) in
         let kept := rev (strip_zeros (rev digits)) in
         str_of_Z (Zpos m / 2 ^ k) ++ py "."
         ++ (match kept with [] => py "0" | _ => kept end))
  | S754_infinity s => if s then py "-inf" else py "inf"
  | S754_nan => py "nan"
  end.

Definition backend : Backend := {|
  str_to_number := plain_decimal;
  wkt_loads := point_wkt;
  epsg_known := common_epsg;
  transform := shift_east;
  float_repr := exact_repr
|}.

Definition text_row (lbl : Z) (kvs : list (string * string)) : Row :=
  mkRow lbl (map (fun kv => (py (fst kv), CStr (py (snd kv)))) kvs).

(** The two rows of the coordinate-pair scenario. *)
Definition lonlat_table : DataFrame :=
  mkDF [py "lon"; py "lat"]
       [text_row 0 [("lon", "7.5"); ("lat", "46.25")]%string;
        text_row 1 [("lon", "bad"); ("lat", "46.9")]%string].

(** A table with a WKT column next to a name and a column that already
    has the label of the scratch column. *)
Definition wkt_table : DataFrame :=
  mkDF [py "name"; py "__geom__"; py "wkt"]
       [text_row 0 [("name", "a"); ("__geom__", "kept?"); ("wkt", "POINT (1 2)")]%string;
        mkRow 1 [(py "name", CStr (py "b")); (py "__geom__", CInt 5);
                 (py "wkt", CNone)];
        text_row 2 [("name", "c"); ("__geom__", "x"); ("wkt", "POINT (3 4.5)")]%string].

(** The same with one cell that is not WKT. *)
Definition bad_wkt_table : DataFrame :=
  mkDF [py "name"; py "wkt"]
       [text_row 0 [("name", "a"); ("wkt", "POINT (1 2)")]%string;
        text_row 1 [("name", "b"); ("wkt", "not wkt")]%string].


(** One point with an infinite and a missing attribute, in Web Mercator. *)
Definition mercator_point : GeoDataFrame :=
  mkGDF [py "v"; py "w"]
        [mkFeature 0 [(py "v", CFloat (S754_infinity false));
                      (py "w", CFloat nan)]
                   (Some (Point (float_of_Z 3, float_of_Z 4)))]
        3857.

End Sample.

(** ** The script around the builders *)

(** [l.index(c)]: the position of the first element equal to [c]; [None]
    stands for the [ValueError] of a value that is not in the list. *)
Fixpoint list_index (c : pystr) (l : list pystr) : option nat :=
  match l with
  | [] => None
  | k :: l' =>
      if pystr_eqb k c then Some 0%nat else option_map S (list_index c l')
  end.

Definition x_candidates : list pystr :=
  [py "x"; py "lon"; py "long"; py "longitude"; py "easting"].

Definition y_candidates : list pystr :=
  [py "y"; py "lat"; py "latitude"; py "northing"].

Definition wkt_names : list pystr := [py "wkt"; py "geom"; py "geometry"].

(** [d[k]] on the table of codes; [None] stands for [KeyError]. *)
Fixpoint dict_get (k : pystr) (d : list (pystr * Z)) : option Z :=
  match d with
  | [] => None
  | (k', v) :: d' => if pystr_eqb k' k then Some v else dict_get k d'
  end.

(** The last entry of the two CRS select boxes; it ends in the ellipsis
    character U+2026. *)
Definition Other : pystr := py "Other" ++ [8230%N].

(** [list(COMMON_EPSG.keys()) + ["Other…"]] *)
Definition epsg_labels : list pystr := map fst COMMON_EPSG ++ [Other].

(** The code of a CRS select box: the number input when the entry is
    the last one, the code of the table otherwise. *)
Definition chosen_epsg (label : pystr) (entered : Z) : option Z :=
  if pystr_eqb label Other then Some entered else dict_get label COMMON_EPSG.

(** [s.rsplit(".", 1)]: the text before and after the last dot, [None]
    when there is no dot (the split then returns the text alone). *)
Fixpoint rsplit_dot (s : pystr) : option (pystr * pystr) :=
  match s with
  | [] => None
  | c :: s' =>
      match rsplit_dot s' with
      | Some (a, b) => Some (c :: a, b)
      | None => if (c =? 46)%N then Some ([], s') else None
      end
  end.

(** [s.rsplit(".", 1)[-1]] *)
Definition last_part (s : pystr) : pystr :=
  match rsplit_dot s with
  | Some (_, b) => b
  | None => s
  end.

Inductive reader :=
| ExcelReader
| CsvReader.

(** [df.empty]: no row or no column. *)
Definition df_empty (df : DataFrame) : bool :=
  match rows df, columns df with
  | [], _ => true
  | _, [] => true
  | _, _ => false
  end.

(** The first selection of [st.selectbox(label, options, index)]:
    the option at [index]; the outer [None] stands for the exception
    streamlit raises for an index that is not a position of a non-empty
    list of options, the inner one for the selection of an empty list. *)
Definition selectbox (options : list pystr) (index : nat)
  : option (option pystr) :=
  match options with
  | [] => Some None
  | _ =>
      match nth_error options index with
      | Some o => Some (Some o)
      | None => None
      end
  end.

(** [cols.index(guess) if guess in cols else fallback] *)
Definition guess_index (cols : list pystr) (guess : option pystr)
    (fallback : nat) : option nat :=
  match guess with
  | Some g => if contains g cols then list_index g cols else Some fallback
  | None => Some fallback
  end.

Section Script.

(** Python's [str.lower], which follows the Unicode case tables. *)
Variable lower : pystr -> pystr.

(** [next((cols[lowered.index(c)] for c in cands if c in lowered), None)];
    the outer [None] stands for an exception of [index] or of the
    subscript. *)
Definition first_guess (cols lowered cands : list pystr)
  : option (option pystr) :=
  match find (fun c => contains c lowered) cands with
  | Some c =>
      match list_index c lowered with
      | Some i =>
          match nth_error cols i with
          | Some col => Some (Some col)
          | None => None
          end
      | None => None
      end
  | None => Some None
  end.

Definition detect_xy_columns (cols : list pystr)
  : option (option pystr * option pystr) :=
  let lowered := map lower cols in
  match first_guess cols lowered x_candidates with
  | Some x_guess =>
      match first_guess cols lowered y_candidates with
      | Some y_guess => Some (x_guess, y_guess)
      | None => None
      end
  | None => None
  end.

(** [uploaded.name.lower().rsplit(".", 1)[-1]] *)
Definition filetype (name : pystr) : pystr := last_part (lower name).

(** [if filetype in {"xlsx", "xls"}: ... else: ...] *)
Definition choose_reader (name : pystr) : reader :=
  if contains (filetype name) [py "xlsx"; py "xls"]
  then ExcelReader else CsvReader.

(** The two select boxes of the coordinate-pair mode on their first
    run; the outer [None] stands for an exception. *)
Definition xy_selection (cols : list pystr)
  : option (option pystr * option pystr) :=
  match detect_xy_columns cols with
  | Some (x_guess, y_guess) =>
      match guess_index cols x_guess 0 with
      | Some i =>
          match selectbox cols i with
          | Some x_col =>
              match guess_index cols y_guess 1 with
              | Some j =>
                  match selectbox cols j with
                  | Some y_col => Some (x_col, y_col)
                  | None => None
                  end
              | None => None
              end
          | None => None
          end
      | None => None
      end
  | None => None
  end.

(** [[c for c in df.columns if c.lower() in {"wkt", "geom", "geometry"}]] *)
Definition wkt_candidates (cols : list pystr) : list pystr :=
  filter (fun c => contains (lower c) wkt_names) cols.

(** The select box of the well-known-text mode on its first run. *)
Definition wkt_selection (cols : list pystr) : option (option pystr) :=
  match
    match wkt_candidates cols with
    | c :: _ => list_index c cols
    | [] => Some 0%nat
    end
  with
  | Some i => selectbox cols i
  | None => None
  end.

End Script.

(** [str.lower] on text of ASCII characters: the letters [A] to [Z]
    become [a] to [z]; used to run the script on examples. *)
Definition ascii_lower (s : pystr) : pystr :=
  map (fun n => if (65 <=? n)%N && (n <=? 90)%N then (n + 32)%N else n) s.

Section Download.

Context {lib : Backend}.

(** The collection the script hands to [to_geojson_bytes]: built,
    reprojected to the output CRS if it differs, then taken to
    EPSG:4326. *)
Definition download_collection (df : DataFrame) (mode : geom_mode)
    (epsg_in epsg_out : Z) : result GeoDataFrame :=
  gdf <- build df mode epsg_in ;;
  gdf <- reproject gdf epsg_in epsg_out ;;
  to_crs gdf 4326.

(** What happens to a coordinate pair on the way to the download. *)
Definition route (epsg_in epsg_out : Z) (c : coord) : coord :=
  let c1 := if epsg_in =? epsg_out then c else transform epsg_in epsg_out c in
  if epsg_out =? 4326 then c1 else transform epsg_out 4326 c1.

End Download.



(** *** Vocabulary of the statements on the script *)

Section ScriptVocabulary.

Variable lower : pystr -> pystr.

(** [col] is the guess for [cands] among [cols]: its lowered name is the
    first candidate, in the order of the candidates, that is the lowered
    name of some column, and [col] is the first column with that lowered
    name. *)
Definition is_first_guess (cols cands : list pystr) (col : pystr) : Prop :=
  exists before c after cols_before cols_after,
    cands = before ++ c :: after /\
    (forall c', In c' before -> forall b, In b cols -> lower b <> c') /\
    cols = cols_before ++ col :: cols_after /\
    lower col = c /\
    (forall b, In b cols_before -> lower b <> c).

(** What a guess of [detect_xy_columns] is allowed to be. *)
Definition guess_ok (cols cands : list pystr) (guess : option pystr) : Prop :=
  match guess with
  | Some col => is_first_guess cols cands col
  | None => forall b, In b cols -> ~ In (lower b) cands
  end.


End ScriptVocabulary.

Section ColumnTypes.

Context {lib : Backend}.



End ColumnTypes.

(** * Properties *)

(** ** Strings and association lists *)

Lemma pystr_eqb_eq (a b : pystr) : pystr_eqb a b = true <-> a = b.
Proof.
  revert b; induction a as [|x a IH]; intros [|y b]; simpl;
    try (split; [discriminate | congruence]).
  - tauto.
  - rewrite andb_true_iff, N.eqb_eq, IH.
    split; [intros [-> ->]; reflexivity | intros H; inversion H; auto].
Qed.

Lemma pystr_eqb_refl (a : pystr) : pystr_eqb a a = true.
Proof. apply pystr_eqb_eq; reflexivity. Qed.

Lemma pystr_eqb_neq (a b : pystr) : pystr_eqb a b = false <-> a <> b.
Proof.
  rewrite <- pystr_eqb_eq. destruct (pystr_eqb a b); split; congruence.
Qed.

Lemma pystr_eqb_sym (a b : pystr) : pystr_eqb a b = pystr_eqb b a.
Proof.
  destruct (pystr_eqb a b) eqn:E.
  - apply pystr_eqb_eq in E; subst; symmetry; apply pystr_eqb_refl.
  - apply pystr_eqb_neq in E. symmetry; apply pystr_eqb_neq; congruence.
Qed.

Lemma contains_In (c : pystr) (cols : list pystr) :
  contains c cols = true <-> In c cols.
Proof.
  unfold contains. rewrite existsb_exists. split.
  - intros [k [Hk E]]. apply pystr_eqb_eq in E; subst; exact Hk.
  - intros H. exists c. split; [exact H | apply pystr_eqb_refl].
Qed.

Lemma assoc_get_set_same (c : pystr) (v : cell) (kvs : list (pystr * cell)) :
  assoc_get c (assoc_set c v kvs) = v.
Proof.
  induction kvs as [|[k w] kvs IH]; simpl.
  - rewrite pystr_eqb_refl; reflexivity.
  - destruct (pystr_eqb k c) eqn:E; simpl; rewrite E; auto.
Qed.

Lemma assoc_get_set_other (c d : pystr) (v : cell) (kvs : list (pystr * cell)) :
  c <> d -> assoc_get d (assoc_set c v kvs) = assoc_get d kvs.
Proof.
  intros Hcd. induction kvs as [|[k w] kvs IH]; simpl.
  - apply pystr_eqb_neq in Hcd. rewrite Hcd; reflexivity.
  - destruct (pystr_eqb k c) eqn:E; simpl.
    + apply pystr_eqb_eq in E; subst k.
      apply pystr_eqb_neq in Hcd. rewrite Hcd; reflexivity.
    + rewrite IH; reflexivity.
Qed.

Lemma assoc_set_keys (c : pystr) (v : cell) (kvs : list (pystr * cell)) :
  In c (map fst kvs) -> map fst (assoc_set c v kvs) = map fst kvs.
Proof.
  induction kvs as [|[k w] kvs IH]; simpl; intros H.
  - contradiction.
  - destruct (pystr_eqb k c) eqn:E; simpl.
    + reflexivity.
    + f_equal. apply IH. destruct H as [H|H]; [|exact H].
      subst k. rewrite pystr_eqb_refl in E; discriminate.
Qed.

Lemma assoc_del_set (c : pystr) (v : cell) (kvs : list (pystr * cell)) :
  assoc_del c (assoc_set c v kvs) = assoc_del c kvs.
Proof.
  unfold assoc_del.
  induction kvs as [|[k w] kvs IH]; simpl.
  - rewrite pystr_eqb_refl; reflexivity.
  - destruct (pystr_eqb k c) eqn:E; simpl; rewrite E; simpl.
    + reflexivity.
    + f_equal; exact IH.
Qed.

Lemma assoc_del_keys (c : pystr) (kvs : list (pystr * cell)) :
  map fst (assoc_del c kvs)
  = filter (fun k => negb (pystr_eqb k c)) (map fst kvs).
Proof.
  unfold assoc_del.
  induction kvs as [|[k w] kvs IH]; simpl; [reflexivity|].
  destruct (pystr_eqb k c); simpl; rewrite IH; reflexivity.
Qed.

Lemma assoc_del_absent (c : pystr) (kvs : list (pystr * cell)) :
  ~ In c (map fst (assoc_del c kvs)).
Proof.
  rewrite assoc_del_keys, filter_In. intros [_ H].
  rewrite pystr_eqb_refl in H; discriminate.
Qed.

Lemma assoc_get_del_other (c d : pystr) (kvs : list (pystr * cell)) :
  c <> d -> assoc_get d (assoc_del c kvs) = assoc_get d kvs.
Proof.
  intros Hcd. unfold assoc_del.
  induction kvs as [|[k w] kvs IH]; simpl; [reflexivity|].
  destruct (pystr_eqb k c) eqn:E; simpl.
  - apply pystr_eqb_eq in E; subst k.
    apply pystr_eqb_neq in Hcd. rewrite Hcd. exact IH.
  - rewrite IH; reflexivity.
Qed.

(** ** Lists and results *)

Lemma filter_map_swap {A B} (f : A -> B) (p : B -> bool) (l : list A) :
  filter p (map f l) = map f (filter (fun a => p (f a)) l).
Proof.
  induction l as [|a l IH]; simpl; [reflexivity|].
  destruct (p (f a)); simpl; rewrite IH; reflexivity.
Qed.

Lemma filter_length_complement {A} (p : A -> bool) (l : list A) :
  (List.length (filter p l)
   = List.length l - List.length (filter (fun a => negb (p a)) l))%nat.
Proof.
  pose proof (filter_length p l) as Hsum. lia.
Qed.

Lemma mapM_map_ok {A B C} (f : B -> result C) (g : A -> B) (h : A -> C)
    (l : list A) :
  (forall a, In a l -> f (g a) = Ok (h a)) ->
  mapM f (map g l) = Ok (map h l).
Proof.
  induction l as [|a l IH]; simpl; intros H; [reflexivity|].
  rewrite (H a (or_introl eq_refl)); simpl.
  rewrite IH by (intros; apply H; right; assumption).
  reflexivity.
Qed.

(** When [mapM] returns, every element was mapped to its own result. *)
Lemma mapM_ok_inv {A B} (f : A -> result B) (d : B) (l : list A)
    (out : list B) :
  mapM f l = Ok out ->
  out = map (fun a => match f a with Ok b => b | Raise _ => d end) l
  /\ forall a, In a l -> exists b, f a = Ok b.
Proof.
  revert out; induction l as [|a l IH]; simpl; intros out H.
  - inversion H; subst. split; [reflexivity | intros ? []].
  - destruct (f a) as [b|e] eqn:Ea; simpl in H; [|discriminate].
    destruct (mapM f l) as [bs|e] eqn:El; simpl in H; [|discriminate].
    inversion H; subst. destruct (IH bs eq_refl) as [-> Hall].
    split; [reflexivity|].
    intros a' [<-|Hin]; [exists b; exact Ea | apply Hall; exact Hin].
Qed.

(** [mapM] raises as soon as one element does. *)
Lemma mapM_raises {A B} (f : A -> result B) (l : list A) (a : A) (e : exception) :
  In a l -> f a = Raise e -> exists e', mapM f l = Raise e'.
Proof.
  induction l as [|x l IH]; simpl; intros Hin Ha; [contradiction|].
  destruct Hin as [->|Hin].
  - rewrite Ha; simpl. exists e; reflexivity.
  - destruct (f x) as [b|e0]; simpl; [|exists e0; reflexivity].
    destruct (IH Hin Ha) as [e' ->]. simpl. exists e'; reflexivity.
Qed.

(** ** Integers never round to NaN *)

Lemma shr_1_nonneg (mrs : shr_record) :
  0 <= shr_m mrs -> 0 <= shr_m (shr_1 mrs).
Proof.
  destruct mrs as [m r s]; simpl.
  destruct m as [|[p|p|]|[p|p|]]; simpl; lia.
Qed.

Lemma iter_shr_1_nonneg (p : positive) :
  forall mrs, 0 <= shr_m mrs -> 0 <= shr_m (iter_pos shr_1 p mrs).
Proof.
  induction p as [p IH|p IH|]; simpl; intros mrs H.
  - apply IH, IH, shr_1_nonneg, H.
  - apply IH, IH, H.
  - apply shr_1_nonneg, H.
Qed.

Lemma shr_fexp_nonneg (prec emax m e : Z) (l : location) :
  0 <= m -> 0 <= shr_m (fst (shr_fexp prec emax m e l)).
Proof.
  intros Hm. unfold shr_fexp, shr.
  assert (H0 : 0 <= shr_m (shr_record_of_loc m l))
    by (destruct l as [|[]]; simpl; exact Hm).
  destruct (fexp prec emax (Zdigits2 m + e) - e) as [|p|p]; simpl;
    try exact H0.
  apply iter_shr_1_nonneg, H0.
Qed.

Lemma round_nearest_even_nonneg (m : Z) (l : location) :
  0 <= m -> 0 <= round_nearest_even m l.
Proof.
  intros Hm. destruct l as [|[]]; simpl; try lia.
  destruct (Z.even m); lia.
Qed.

Lemma binary_round_aux_not_nan (prec emax : Z) (s : bool) (m e : Z)
    (l : location) :
  0 <= m -> isnan (binary_round_aux prec emax s m e l) = false.
Proof.
  intros Hm. unfold binary_round_aux.
  pose proof (shr_fexp_nonneg prec emax m e l Hm) as H1.
  destruct (shr_fexp prec emax m e l) as [mrs1 e1]; simpl in H1.
  pose proof (shr_fexp_nonneg prec emax
                (round_nearest_even (shr_m mrs1) (loc_of_shr_record mrs1))
                e1 loc_Exact
                (round_nearest_even_nonneg _ _ H1)) as H2.
  destruct (shr_fexp prec emax _ e1 loc_Exact) as [mrs2 e2]; simpl in H2.
  destruct (shr_m mrs2) as [|p|p]; simpl; try reflexivity.
  - destruct (e2 <=? emax - prec); reflexivity.
  - lia.
Qed.

Lemma float_of_Z_not_nan (z : Z) : isnan (float_of_Z z) = false.
Proof.
  unfold float_of_Z, binary_normalize, binary_round.
  destruct z as [|p|p]; [reflexivity| |];
    destruct (shl_align p 0 _) as [mz ez];
    apply binary_round_aux_not_nan; lia.
Qed.

(** ** Coercion of a column *)

Section Coercion.

Context {lib : Backend}.

(** [to_numeric] maps each cell by one [coercion]. *)
Lemma to_numeric_pointwise (col : list cell) :
  exists g, coercion g /\ to_numeric col = map g col.
Proof.
  unfold to_numeric.
  destruct (forallb is_int (map coerce_cell col)).
  - exists (fun c => cell_of_number (coerce_cell c)). split.
    + intros c; left; reflexivity.
    + apply map_map.
  - exists (fun c => CFloat (coerced c)). split.
    + intros c; right; reflexivity.
    + rewrite map_map; reflexivity.
Qed.

Lemma coercion_isna (g : cell -> cell) (c : cell) :
  coercion g -> notna (g c) = coercible c.
Proof.
  intros Hg. unfold notna, coercible, coerced.
  destruct (Hg c) as [-> | ->]; [|reflexivity].
  destruct (coerce_cell c) as [z|f]; simpl; [|reflexivity].
  rewrite float_of_Z_not_nan; reflexivity.
Qed.

Lemma coercion_as_float64 (g : cell -> cell) (c : cell) :
  coercion g -> as_float64 (g c) = Ok (coerced c).
Proof.
  intros Hg. unfold coerced.
  destruct (Hg c) as [-> | ->]; [|reflexivity].
  destruct (coerce_cell c); reflexivity.
Qed.

Lemma coercion_coerced (g : cell -> cell) (c : cell) :
  coercion g -> coerced (g c) = coerced c.
Proof.
  intros Hg. unfold coerced.
  destruct (Hg c) as [-> | ->]; [|reflexivity].
  destruct (coerce_cell c); reflexivity.
Qed.

Lemma coercion_compose (g h : cell -> cell) :
  coercion g -> coercion h -> coercion (fun c => h (g c)).
Proof.
  intros Hg Hh c.
  pose proof (coercion_coerced g c Hg) as Hc. unfold coerced in *.
  destruct (Hh (g c)) as [E|E]; rewrite E.
  - destruct (Hg c) as [E'|E']; rewrite E'.
    + left. destruct (coerce_cell c); reflexivity.
    + right. reflexivity.
  - right. f_equal. exact Hc.
Qed.


(** ** Writing a column *)

Lemma set_rows_map (c : pystr) (g : cell -> cell) (rs : list Row) :
  set_rows c rs (map g (map (row_get c) rs)) = map (update_cell c g) rs.
Proof.
  induction rs as [|r rs IH]; simpl; [reflexivity|].
  rewrite IH; reflexivity.
Qed.

Lemma setitem_coerced (df : DataFrame) (c : pystr) :
  contains c (columns df) = true ->
  exists g, coercion g /\
    setitem df c (to_numeric (getitem df c))
    = mkDF (columns df) (map (update_cell c g) (rows df)).
Proof.
  intros Hc. destruct (to_numeric_pointwise (getitem df c)) as [g [Hg E]].
  exists g. split; [exact Hg|].
  unfold setitem. rewrite Hc, E. unfold getitem. rewrite set_rows_map.
  reflexivity.
Qed.

Lemma row_get_update_same (c : pystr) (g : cell -> cell) (r : Row) :
  row_get c (update_cell c g r) = g (row_get c r).
Proof. unfold row_get, update_cell; simpl. apply assoc_get_set_same. Qed.

Lemma row_get_update_other (c d : pystr) (g : cell -> cell) (r : Row) :
  c <> d -> row_get d (update_cell c g r) = row_get d r.
Proof.
  intros H. unfold row_get, update_cell; simpl.
  apply assoc_get_set_other, H.
Qed.

End Coercion.

(** ** What the coordinate-pair builder computes *)

Section XY.

Context {lib : Backend}.

Lemma xy_written_values (x y : pystr) (gx gy : cell -> cell) :
  coercion gx -> coercion gy ->
  exists hx hy, coercion hx /\ coercion hy /\
    forall r,
      row_get x (update_cell y gy (update_cell x gx r)) = hx (row_get x r) /\
      row_get y (update_cell y gy (update_cell x gx r)) = hy (row_get y r).
Proof.
  intros Hgx Hgy. destruct (pystr_eqb x y) eqn:E.
  - apply pystr_eqb_eq in E; subst y.
    exists (fun c => gy (gx c)), (fun c => gy (gx c)).
    repeat split; try (apply coercion_compose; assumption);
      rewrite !row_get_update_same; reflexivity.
  - apply pystr_eqb_neq in E.
    exists gx, gy. repeat split; try assumption.
    + rewrite row_get_update_other by congruence.
      apply row_get_update_same.
    + rewrite row_get_update_same, row_get_update_other by exact E.
      reflexivity.
Qed.

Lemma points_from_xy_coerced (x y : pystr) (hx hy : cell -> cell)
    (f : Row -> Row) (rs : list Row) :
  coercion hx -> coercion hy ->
  (forall r, row_get x (f r) = hx (row_get x r) /\
             row_get y (f r) = hy (row_get y r)) ->
  points_from_xy (map (row_get x) (map f rs)) (map (row_get y) (map f rs))
  = Ok (map (fun r => CGeom (xy_point x y r)) rs).
Proof.
  intros Hx Hy Hf. induction rs as [|r rs IH]; simpl; [reflexivity|].
  destruct (Hf r) as [-> ->].
  rewrite (coercion_as_float64 hx _ Hx), (coercion_as_float64 hy _ Hy).
  simpl. rewrite IH. reflexivity.
Qed.

Lemma attach_map (f : Row -> Row) (g : Row -> option geometry) (rs : list Row) :
  attach (map f rs) (map g rs)
  = map (fun r => mkFeature (label (f r))
                    (assoc_del (py "geometry") (cells (f r))) (g r)) rs.
Proof.
  induction rs as [|r rs IH]; simpl; [reflexivity|].
  rewrite IH; reflexivity.
Qed.

(** The builder, once both columns are there, is: coerce the two columns,
    keep the rows whose two values are numbers, make one point per row,
    then tag. *)
Lemma make_gdf_from_xy_run (df : DataFrame) (x y : pystr) :
  contains x (columns df) = true ->
  contains y (columns df) = true ->
  exists gx gy, coercion gx /\ coercion gy /\
    forall e,
      make_gdf_from_xy df x y e
      = (tag <- CRS_from_epsg e ;;
         Ok (mkGDF (without (py "geometry") (columns df))
                   (map (xy_feature x y gx gy) (filter (xy_ok x y) (rows df)))
                   tag)).
Proof.
  intros Hx Hy. unfold make_gdf_from_xy, copy.
  rewrite Hx, Hy; simpl.
  destruct (setitem_coerced df x Hx) as [gx [Hgx E1]]. rewrite E1.
  destruct (setitem_coerced (mkDF (columns df) (map (update_cell x gx) (rows df)))
              y Hy) as [gy [Hgy E2]].
  rewrite E2. simpl.
  exists gx, gy. split; [exact Hgx|]. split; [exact Hgy|]. intros e.
  destruct (xy_written_values x y gx gy Hgx Hgy) as [hx [hy [Hhx [Hhy Hval]]]].
  unfold dropna, getitem; simpl.
  rewrite map_map, filter_map_swap.
  rewrite (filter_ext _ (xy_ok x y)).
  2:{ intros r. simpl. destruct (Hval r) as [-> ->].
      rewrite (coercion_isna hx _ Hhx), (coercion_isna hy _ Hhy).
      unfold xy_ok. rewrite andb_true_r. reflexivity. }
  rewrite (points_from_xy_coerced x y hx hy _ _ Hhx Hhy Hval). simpl.
  unfold GeoDataFrame_new.
  rewrite (mapM_map_ok from_shapely_item _ (fun r => Some (xy_point x y r)))
    by reflexivity.
  simpl. rewrite attach_map. reflexivity.
Qed.

End XY.

(** ** What the WKT builder computes *)

Section WKT.

Context {lib : Backend}.

Lemma set_rows_values (c : pystr) (v : Row -> cell) (rs : list Row) :
  set_rows c rs (map v rs)
  = map (fun r => mkRow (label r) (assoc_set c (v r) (cells r))) rs.
Proof.
  induction rs as [|r rs IH]; simpl; [reflexivity|].
  rewrite IH; reflexivity.
Qed.

Lemma load_wkt_cell_ok (c : cell) :
  wkt_raises c = false -> load_wkt_cell c = Ok (loaded c).
Proof.
  unfold wkt_raises, loaded, load_wkt_cell, parsed_geometry.
  destruct c as [t|z|f| |g]; simpl; try discriminate; try reflexivity.
  - destruct (wkt_loads t); [reflexivity | discriminate].
  - destruct f; simpl; try discriminate; reflexivity.
Qed.

Lemma notna_loaded (c : cell) :
  notna (loaded c)
  = match parsed_geometry c with Some _ => true | None => false end.
Proof. unfold loaded. destruct (parsed_geometry c); reflexivity. Qed.

Lemma from_shapely_loaded (c : cell) :
  from_shapely_item (loaded c) = Ok (parsed_geometry c).
Proof. unfold loaded. destruct (parsed_geometry c); reflexivity. Qed.

Lemma without_setitem_columns (df : DataFrame) (c : pystr) (vals : list cell) :
  without c (columns (setitem df c vals)) = without c (columns df).
Proof.
  unfold without, setitem; simpl.
  destruct (contains c (columns df)); [reflexivity|].
  rewrite filter_app; simpl. rewrite pystr_eqb_refl; simpl.
  apply app_nil_r.
Qed.

(** When no cell of the WKT column makes the reader raise, the builder
    is: keep the rows whose cell is WKT text, one feature per row, tag. *)
Lemma make_gdf_from_wkt_run (df : DataFrame) (w : pystr) (e : Z) :
  contains w (columns df) = true ->
  (forall r, In r (rows df) -> wkt_raises (row_get w r) = false) ->
  make_gdf_from_wkt df w e
  = (tag <- CRS_from_epsg e ;;
     Ok (mkGDF (without (py "geometry") (without (py "__geom__") (columns df)))
               (map (wkt_feature w) (filter (wkt_ok w) (rows df)))
               tag)).
Proof.
  intros Hw Hload. unfold make_gdf_from_wkt, copy.
  rewrite Hw; simpl. unfold getitem at 1.
  rewrite (mapM_map_ok load_wkt_cell (row_get w)
             (fun r => loaded (row_get w r)))
    by (intros r Hr; apply load_wkt_cell_ok, Hload, Hr).
  simpl.
  set (G := py "__geom__").
  set (vals := map (fun r => loaded (row_get w r)) (rows df)).
  unfold GeoDataFrame_new.
  replace (columns (drop_column (dropna (setitem df G vals) [G]) G))
    with (without G (columns df))
    by (symmetry; apply (without_setitem_columns df G vals)).
  unfold dropna, drop_column, getitem; simpl. subst vals.
  rewrite set_rows_values, filter_map_swap, !map_map.
  rewrite (filter_ext _ (wkt_ok w)).
  2:{ intros r. unfold row_get at 1; simpl.
      rewrite assoc_get_set_same, andb_true_r, notna_loaded. reflexivity. }
  rewrite (mapM_map_ok from_shapely_item _
             (fun r => parsed_geometry (row_get w r))).
  2:{ intros r _. unfold row_get at 1; simpl.
      rewrite assoc_get_set_same. apply from_shapely_loaded. }
  simpl.
  destruct (CRS_from_epsg e) as [tag|err]; simpl; [|reflexivity].
  rewrite attach_map. simpl. do 2 f_equal.
  apply map_ext. intros r. unfold wkt_feature.
  rewrite assoc_del_set. reflexivity.
Qed.

(** One cell the reader raises on makes the whole call raise. *)
Lemma make_gdf_from_wkt_raises (df : DataFrame) (w : pystr) (e : Z) (r : Row) :
  contains w (columns df) = true ->
  In r (rows df) ->
  wkt_raises (row_get w r) = true ->
  exists err, make_gdf_from_wkt df w e = Raise err.
Proof.
  intros Hw Hr Hbad. unfold make_gdf_from_wkt, copy.
  rewrite Hw; simpl.
  unfold wkt_raises in Hbad.
  destruct (load_wkt_cell (row_get w r)) as [v|err0] eqn:E; [discriminate|].
  destruct (mapM_raises load_wkt_cell (getitem df w) (row_get w r) err0)
    as [err Herr].
  - unfold getitem. apply in_map, Hr.
  - exact E.
  - rewrite Herr. simpl. exists err; reflexivity.
Qed.

End WKT.

(** ** Coordinate-pair mode *)

Section XYClaims.

Context {lib : Backend}.

(** The cells the coercion turns into a number: integers, floats other
    than NaN, and text that reads as a number other than NaN. *)
Lemma coercible_cases (c : cell) :
  coercible c
  = match c with
    | CStr s =>
        match str_to_number s with
        | Some n => negb (isnan (number_float n))
        | None => false
        end
    | CInt _ => true
    | CFloat f => negb (isnan f)
    | CNone => false
    | CGeom _ => false
    end.
Proof.
  unfold coercible, coerced.
  destruct c as [s|z|f| |g]; simpl; try reflexivity.
  - destruct (str_to_number s); reflexivity.
  - rewrite float_of_Z_not_nan; reflexivity.
Qed.

(** C1: in coordinate-pair mode, on a well-formed table that has both
    columns, the build keeps exactly the rows whose x and y values both
    coerce to a number, in their order, one point feature per kept row;
    the rows that do not coerce raise nothing (the only exception the call
    can raise is the one for an EPSG code the registry does not have), and
    the number of features is the number of rows minus the number of
    dropped rows. *)
Theorem xy_build_drops_exactly_uncoercible_rows
    (df : DataFrame) (x_col y_col : pystr) (epsg_in : Z) :
  wf_df df ->
  contains x_col (columns df) = true ->
  contains y_col (columns df) = true ->
  (forall err, make_gdf_from_xy df x_col y_col epsg_in = Raise err ->
               err = CRSError epsg_in /\ epsg_known epsg_in = false) /\
  (epsg_known epsg_in = true ->
   exists gdf,
     make_gdf_from_xy df x_col y_col epsg_in = Ok gdf /\
     Forall2 (fun r f => fid f = label r /\
                         geom f = Some (xy_point x_col y_col r))
             (filter (xy_ok x_col y_col) (rows df)) (features gdf) /\
     List.length (features gdf)
     = (List.length (rows df)
        - List.length (filter (fun r => negb (xy_ok x_col y_col r)) (rows df)))%nat).
Proof.
  intros _ Hx Hy.
  destruct (make_gdf_from_xy_run df x_col y_col Hx Hy)
    as [gx [gy [_ [_ E]]]].
  rewrite E. clear E. unfold CRS_from_epsg.
  destruct (epsg_known epsg_in); simpl; split.
  - intros err H; discriminate.
  - intros _. eexists. split; [reflexivity|]. simpl. split.
    + induction (filter (xy_ok x_col y_col) (rows df)) as [|r rs IH]; simpl.
      * constructor.
      * constructor; [split; reflexivity | exact IH].
    + rewrite length_map. apply filter_length_complement.
  - intros err H. inversion H. split; reflexivity.
  - discriminate.
Qed.

(** C5: in coordinate-pair mode, when the x column or the y column is not
    a column of the table, the build raises the column-not-found error
    ([ValueError] with the script's message); the rows play no part: the
    outcome is the same for every content of the table, and the CRS tag,
    which is made after the rows are processed, is not reached. *)
Theorem xy_build_missing_column_raises
    (df : DataFrame) (x_col y_col : pystr) (epsg_in : Z) :
  contains x_col (columns df) = false \/ contains y_col (columns df) = false ->
  forall rs,
    make_gdf_from_xy (mkDF (columns df) rs) x_col y_col epsg_in
    = Raise (ValueError (py "Selected X or Y column not found in the table."))
    /\ make_gdf_from_xy df x_col y_col epsg_in
       = make_gdf_from_xy (mkDF (columns df) rs) x_col y_col epsg_in.
Proof.
  intros H rs. unfold make_gdf_from_xy; simpl.
  destruct H as [-> | ->]; simpl; rewrite ?orb_true_r; split; reflexivity.
Qed.

End XYClaims.

Lemma sample_lonlat_table_wf : wf_df Sample.lonlat_table.
Proof.
  split.
  - repeat constructor; simpl; intuition discriminate.
  - repeat constructor.
Defined.

Lemma xy_build_drops_exactly_uncoercible_rows_witness :
  exists gdf,
    make_gdf_from_xy (lib := Sample.backend) Sample.lonlat_table
                     (py "lon") (py "lat") 4326 = Ok gdf /\
    map fid (features gdf) = [0] /\
    List.length (features gdf) = (2 - 1)%nat.
Proof.
  destruct (xy_build_drops_exactly_uncoercible_rows (lib := Sample.backend)
              Sample.lonlat_table (py "lon") (py "lat") 4326
              sample_lonlat_table_wf eq_refl eq_refl) as [_ H].
  destruct (H eq_refl) as [gdf [E [_ L]]].
  exists gdf. split; [exact E|]. split; [|exact L].
  vm_compute in E. inversion E. reflexivity.
Defined.

Lemma xy_build_missing_column_raises_witness :
  make_gdf_from_xy (lib := Sample.backend)
    (mkDF (columns Sample.lonlat_table) []) (py "lon") (py "latitude") 99999
  = Raise (ValueError (py "Selected X or Y column not found in the table.")).
Proof.
  apply (xy_build_missing_column_raises (lib := Sample.backend)
           Sample.lonlat_table (py "lon") (py "latitude") 99999).
  right. reflexivity.
Defined.

(** ** Well-known-text mode *)

Section WKTClaims.

Context {lib : Backend}.

Lemma wkt_raises_unparsable (t : pystr) :
  wkt_loads t = None -> wkt_raises (CStr t) = true.
Proof.
  intros H. unfold wkt_raises, load_wkt_cell; simpl. rewrite H. reflexivity.
Qed.

(** A build that returns had the column and met no cell the reader
    raises on. *)
Lemma make_gdf_from_wkt_ok_inv (df : DataFrame) (w : pystr) (e : Z)
    (gdf : GeoDataFrame) :
  make_gdf_from_wkt df w e = Ok gdf ->
  contains w (columns df) = true /\
  (forall r, In r (rows df) -> wkt_raises (row_get w r) = false).
Proof.
  intros H.
  assert (Hw : contains w (columns df) = true).
  { destruct (contains w (columns df)) eqn:E; [reflexivity|].
    unfold make_gdf_from_wkt in H. rewrite E in H. discriminate. }
  split; [exact Hw|].
  intros r Hr. destruct (wkt_raises (row_get w r)) eqn:E; [|reflexivity].
  destruct (make_gdf_from_wkt_raises df w e r Hw Hr E) as [err Herr].
  congruence.
Qed.

Lemma make_gdf_from_wkt_ok_shape (df : DataFrame) (w : pystr) (e : Z)
    (gdf : GeoDataFrame) :
  make_gdf_from_wkt df w e = Ok gdf ->
  epsg_known e = true /\
  gdf = mkGDF (without (py "geometry") (without (py "__geom__") (columns df)))
              (map (wkt_feature w) (filter (wkt_ok w) (rows df)))
              e.
Proof.
  intros H. destruct (make_gdf_from_wkt_ok_inv df w e gdf H) as [Hw Hrows].
  rewrite (make_gdf_from_wkt_run df w e Hw Hrows) in H.
  unfold CRS_from_epsg in H.
  destruct (epsg_known e); simpl in H; [|discriminate].
  inversion H. split; reflexivity.
Qed.

Lemma getitem_setitem (df : DataFrame) (c : pystr) (vals : list cell) :
  List.length vals = List.length (rows df) ->
  getitem (setitem df c vals) c = vals.
Proof.
  unfold getitem, setitem; simpl.
  generalize (rows df) as rs. induction vals as [|v vals IH];
    intros [|r rs] H; simpl in *; try discriminate; try reflexivity.
  unfold row_get at 1; simpl. rewrite assoc_get_set_same.
  f_equal. apply IH. lia.
Qed.

(** C2 (what the code does): in well-known-text mode, on a table that
    has the WKT column, one row whose text the WKT reader cannot parse
    makes the whole build raise; no collection is returned. *)
Theorem wkt_build_raises_on_unparsable_row
    (df : DataFrame) (wkt_col : pystr) (epsg_in : Z) (r : Row) (t : pystr) :
  contains wkt_col (columns df) = true ->
  In r (rows df) ->
  row_get wkt_col r = CStr t ->
  wkt_loads t = None ->
  exists err, make_gdf_from_wkt df wkt_col epsg_in = Raise err.
Proof.
  intros Hw Hr Hcell Hbad.
  apply (make_gdf_from_wkt_raises df wkt_col epsg_in r Hw Hr).
  rewrite Hcell. apply wkt_raises_unparsable, Hbad.
Qed.

(** C10: in well-known-text mode, on a well-formed table that already has
    a column ["__geom__"], the assignment of the parsed geometries overwrites that
    column in place, and the collection built has no ["__geom__"] among
    its property columns nor among the properties of any feature: the
    values the caller had there are gone, while every other column except
    ["geometry"] is kept in order. *)
Theorem wkt_build_loses_existing_scratch_column
    (df : DataFrame) (wkt_col : pystr) (epsg_in : Z) (gdf : GeoDataFrame) :
  wf_df df ->
  contains (py "__geom__") (columns df) = true ->
  make_gdf_from_wkt df wkt_col epsg_in = Ok gdf ->
  (forall vals,
      List.length vals = List.length (rows df) ->
      columns (setitem df (py "__geom__") vals) = columns df /\
      getitem (setitem df (py "__geom__") vals) (py "__geom__") = vals) /\
  ~ In (py "__geom__") (property_columns gdf) /\
  Forall (fun f => ~ In (py "__geom__") (map fst (properties f)))
         (features gdf) /\
  property_columns gdf
  = without (py "geometry") (without (py "__geom__") (columns df)).
Proof.
  intros _ HG H.
  destruct (make_gdf_from_wkt_ok_shape df wkt_col epsg_in gdf H) as [_ ->].
  simpl. repeat split.
  - unfold setitem; simpl. rewrite HG. reflexivity.
  - apply getitem_setitem. assumption.
  - unfold without. rewrite !filter_In. intros [[_ Hne] _].
    rewrite pystr_eqb_refl in Hne. discriminate.
  - apply Forall_forall. intros f Hf.
    apply in_map_iff in Hf. destruct Hf as [r [<- _]].
    unfold wkt_feature; simpl.
    rewrite assoc_del_keys, filter_In. intros [Hin _].
    exact (assoc_del_absent _ _ Hin).
Qed.

End WKTClaims.

Lemma wkt_build_raises_on_unparsable_row_witness :
  exists err,
    make_gdf_from_wkt (lib := Sample.backend) Sample.bad_wkt_table
                      (py "wkt") 4326 = Raise err.
Proof.
  apply (wkt_build_raises_on_unparsable_row (lib := Sample.backend)
           Sample.bad_wkt_table (py "wkt") 4326
           (Sample.text_row 1 [("name", "b"); ("wkt", "not wkt")]%string)
           (py "not wkt")).
  - reflexivity.
  - right; left; reflexivity.
  - reflexivity.
  - reflexivity.
Defined.

(** The exception is the reader's, on the text of the bad row. *)
Example bad_wkt_table_run :
  make_gdf_from_wkt (lib := Sample.backend) Sample.bad_wkt_table
                    (py "wkt") 4326
  = Raise (WKTReadingError (py "not wkt")).
Proof. reflexivity. Qed.

Lemma sample_wkt_table_wf : wf_df Sample.wkt_table.
Proof.
  split.
  - repeat constructor; simpl; intuition discriminate.
  - repeat constructor.
Defined.

Lemma wkt_build_loses_existing_scratch_column_witness :
  exists gdf,
    make_gdf_from_wkt (lib := Sample.backend) Sample.wkt_table
                      (py "wkt") 4326 = Ok gdf /\
    In (py "__geom__") (columns Sample.wkt_table) /\
    ~ In (py "__geom__") (property_columns gdf) /\
    property_columns gdf = [py "name"; py "wkt"].
Proof.
  eexists. split; [vm_compute; reflexivity|].
  split; [right; left; reflexivity|].
  split.
  - eapply (wkt_build_loses_existing_scratch_column (lib := Sample.backend)
              Sample.wkt_table (py "wkt") 4326);
      [exact sample_wkt_table_wf | reflexivity | vm_compute; reflexivity].
  - reflexivity.
Defined.

(** ** The columns a build keeps *)

Section Columns.

Context {lib : Backend}.

Lemma without_twice (a b : pystr) (cols : list pystr) :
  without a (without b cols)
  = filter (fun c => negb (contains c [b; a])) cols.
Proof.
  unfold without, contains.
  induction cols as [|k cols IH]; simpl; [reflexivity|].
  rewrite (pystr_eqb_sym k b), (pystr_eqb_sym k a), orb_false_r.
  destruct (pystr_eqb b k); simpl; [exact IH|].
  rewrite (pystr_eqb_sym k a).
  destruct (pystr_eqb a k); simpl; rewrite IH; reflexivity.
Qed.

Lemma without_once (a : pystr) (cols : list pystr) :
  without a cols = filter (fun c => negb (contains c [a])) cols.
Proof.
  unfold without, contains. apply filter_ext. intros k; simpl.
  rewrite orb_false_r, pystr_eqb_sym. reflexivity.
Qed.

Lemma In_without (a c : pystr) (cols : list pystr) :
  In c (without a cols) <-> In c cols /\ c <> a.
Proof.
  unfold without. rewrite filter_In, negb_true_iff, pystr_eqb_neq. tauto.
Qed.

Lemma make_gdf_from_xy_ok_inv (df : DataFrame) (x y : pystr) (e : Z)
    (gdf : GeoDataFrame) :
  make_gdf_from_xy df x y e = Ok gdf ->
  contains x (columns df) = true /\ contains y (columns df) = true.
Proof.
  unfold make_gdf_from_xy.
  destruct (contains x (columns df)), (contains y (columns df)); simpl;
    intros H; try discriminate; split; reflexivity.
Qed.

Lemma make_gdf_from_xy_ok_shape (df : DataFrame) (x y : pystr) (e : Z)
    (gdf : GeoDataFrame) :
  make_gdf_from_xy df x y e = Ok gdf ->
  epsg_known e = true /\
  exists gx gy, coercion gx /\ coercion gy /\
    gdf = mkGDF (without (py "geometry") (columns df))
                (map (xy_feature x y gx gy) (filter (xy_ok x y) (rows df)))
                e.
Proof.
  intros H. destruct (make_gdf_from_xy_ok_inv df x y e gdf H) as [Hx Hy].
  destruct (make_gdf_from_xy_run df x y Hx Hy) as [gx [gy [Hgx [Hgy E]]]].
  rewrite E in H. unfold CRS_from_epsg in H.
  destruct (epsg_known e); simpl in H; [|discriminate].
  inversion H. split; [reflexivity|]. exists gx, gy. auto.
Qed.

Lemma Forall2_map_right {A B} (R : A -> B -> Prop) (f : A -> B) (l : list A) :
  (forall a, In a l -> R a (f a)) -> Forall2 R l (map f l).
Proof.
  induction l as [|a l IH]; simpl; intros H; constructor.
  - apply H; left; reflexivity.
  - apply IH. intros; apply H; right; assumption.
Qed.

Lemma xy_feature_keys (df : DataFrame) (x y : pystr) (gx gy : cell -> cell)
    (r : Row) :
  In x (columns df) -> In y (columns df) ->
  map fst (cells r) = columns df ->
  map fst (properties (xy_feature x y gx gy r))
  = without (py "geometry") (columns df).
Proof.
  intros Hx Hy Hr. unfold xy_feature, update_cell; simpl.
  rewrite assoc_del_keys. unfold without. f_equal.
  rewrite !assoc_set_keys; rewrite ?assoc_set_keys; rewrite ?Hr; auto.
Qed.

Lemma xy_feature_values (x y : pystr) (gx gy : cell -> cell) (r : Row)
    (c : pystr) :
  coercion gx -> coercion gy ->
  c <> py "geometry" ->
  kept_value (XYMode x y) c (row_get c r)
             (assoc_get c (properties (xy_feature x y gx gy r))).
Proof.
  intros Hgx Hgy Hc.
  destruct (xy_written_values x y gx gy Hgx Hgy) as [hx [hy [Hhx [Hhy Hval]]]].
  destruct (Hval r) as [Vx Vy].
  unfold xy_feature; cbn [properties].
  rewrite assoc_get_del_other by congruence.
  fold (row_get c (update_cell y gy (update_cell x gx r))).
  unfold kept_value, contains; cbn [existsb].
  destruct (pystr_eqb c x) eqn:Ex; cbn [orb].
  - apply pystr_eqb_eq in Ex; subst c. rewrite Vx. apply Hhx.
  - destruct (pystr_eqb c y) eqn:Ey; cbn [orb].
    + apply pystr_eqb_eq in Ey; subst c. rewrite Vy. apply Hhy.
    + apply pystr_eqb_neq in Ex, Ey.
      rewrite !row_get_update_other by congruence. reflexivity.
Qed.

Lemma wkt_feature_values (w : pystr) (r : Row) (c : pystr) :
  c <> py "geometry" -> c <> py "__geom__" ->
  assoc_get c (properties (wkt_feature w r)) = row_get c r.
Proof.
  intros H1 H2. unfold wkt_feature; simpl.
  rewrite !assoc_get_del_other by congruence. reflexivity.
Qed.

(** C4 (as the code has it): a build removes no geometry-source column.
    On a well-formed table, the property columns of the collection are
    the columns of the table, in order, without a column named
    ["geometry"] and, in well-known-text mode, without ["__geom__"]; the
    source columns are among them unless they have one of those names;
    each feature comes from one kept row, has exactly these properties,
    and holds under every column the cell of its row, the x and y columns
    holding the coerced numbers. *)
Theorem build_keeps_source_columns
    (df : DataFrame) (mode : geom_mode) (epsg_in : Z) (gdf : GeoDataFrame) :
  wf_df df ->
  build df mode epsg_in = Ok gdf ->
  property_columns gdf = unreserved mode (columns df) /\
  (forall c, In c (source_columns mode) ->
             ~ In c (reserved_columns mode) ->
             In c (property_columns gdf)) /\
  Forall2 (fun r f =>
             fid f = label r /\
             map fst (properties f) = property_columns gdf /\
             forall c, In c (property_columns gdf) ->
                       kept_value mode c (row_get c r)
                                  (assoc_get c (properties f)))
          (filter (survives mode) (rows df)) (features gdf).
Proof.
  intros [Hnd Hrows] H. rewrite Forall_forall in Hrows.
  destruct mode as [x y|w]; simpl in H.
  - destruct (make_gdf_from_xy_ok_inv df x y epsg_in gdf H) as [Hx Hy].
    apply contains_In in Hx, Hy.
    destruct (make_gdf_from_xy_ok_shape df x y epsg_in gdf H)
      as [_ [gx [gy [Hgx [Hgy ->]]]]].
    unfold unreserved.
    cbn [reserved_columns source_columns survives property_columns features].
    rewrite <- without_once.
    split; [reflexivity|]. split.
    + intros c [<-|[<-|[]]] Hres; apply In_without; split; auto;
        intros ->; apply Hres; left; reflexivity.
    + apply Forall2_map_right. intros r Hr.
      apply filter_In in Hr. destruct Hr as [Hr _].
      split; [reflexivity|]. split.
      * apply (xy_feature_keys df); auto.
      * intros c Hc. apply In_without in Hc. destruct Hc as [_ Hc].
        apply xy_feature_values; assumption.
  - destruct (make_gdf_from_wkt_ok_inv df w epsg_in gdf H) as [Hw _].
    apply contains_In in Hw.
    destruct (make_gdf_from_wkt_ok_shape df w epsg_in gdf H) as [_ ->].
    unfold unreserved.
    cbn [reserved_columns source_columns survives property_columns features].
    rewrite <- without_twice.
    split; [reflexivity|]. split.
    + intros c [<-|[]] Hres. apply In_without; split.
      * apply In_without; split; [exact Hw|].
        intros ->; apply Hres; left; reflexivity.
      * intros ->; apply Hres; right; left; reflexivity.
    + apply Forall2_map_right. intros r Hr.
      apply filter_In in Hr. destruct Hr as [Hr _].
      split; [reflexivity|]. split.
      * unfold wkt_feature; simpl. rewrite !assoc_del_keys.
        rewrite (Hrows r Hr). reflexivity.
      * intros c Hc. apply In_without in Hc. destruct Hc as [Hc Hc1].
        apply In_without in Hc. destruct Hc as [_ Hc2].
        apply wkt_feature_values; assumption.
Qed.

End Columns.

(** C4 (as stated) fails: the features built from [Sample.wkt_table] in
    well-known-text mode still have the property ["wkt"], and the features
    built from [Sample.lonlat_table] in coordinate-pair mode still have
    ["lon"] and ["lat"]. *)
Lemma build_removes_source_columns_counterexample :
  (exists gdf,
      build (lib := Sample.backend) Sample.wkt_table
            (WKTMode (py "wkt")) 4326 = Ok gdf /\
      ~ sources_removed (WKTMode (py "wkt")) gdf) /\
  (exists gdf,
      build (lib := Sample.backend) Sample.lonlat_table
            (XYMode (py "lon") (py "lat")) 4326 = Ok gdf /\
      ~ sources_removed (XYMode (py "lon") (py "lat")) gdf).
Proof.
  split; eexists; (split; [vm_compute; reflexivity|]);
    intros H; inversion H as [|f fs Hf _]; subst.
  - apply (Hf (py "wkt")); [left; reflexivity|].
    right; left; reflexivity.
  - apply (Hf (py "lon")); [left; reflexivity|].
    left; reflexivity.
Qed.

Lemma build_keeps_source_columns_witness :
  wf_df Sample.wkt_table /\
  exists gdf,
    build (lib := Sample.backend) Sample.wkt_table
          (WKTMode (py "wkt")) 4326 = Ok gdf /\
    property_columns gdf
    = unreserved (WKTMode (py "wkt")) (columns Sample.wkt_table) /\
    In (py "wkt") (property_columns gdf).
Proof.
  split; [exact sample_wkt_table_wf|].
  eexists. split; [vm_compute; reflexivity|].
  destruct (build_keeps_source_columns (lib := Sample.backend)
              Sample.wkt_table (WKTMode (py "wkt")) 4326 _
              sample_wkt_table_wf eq_refl) as [Hcols [Hsrc _]].
  split; [exact Hcols|].
  apply Hsrc; [left; reflexivity|].
  simpl; intuition discriminate.
Defined.

(** ** CRS assignment *)

Section Assignment.

Context {lib : Backend}.

Lemma map_geom_attach (rs : list Row) (gs : list (option geometry)) :
  List.length gs = List.length rs -> map geom (attach rs gs) = gs.
Proof.
  revert gs; induction rs as [|r rs IH]; intros [|g gs] H;
    simpl in *; try discriminate; try reflexivity.
  f_equal. apply IH. lia.
Qed.

(** C9 (as the code has it): the CRS tag is looked up in the registry
    when the collection is made.  Given geometries that are valid, one per
    row, the assignment of a code the registry has succeeds, sets the tag
    to that code and stores every geometry as it was given; the
    assignment of a code the registry does not have raises [CRSError]
    there and then. *)
Theorem crs_assignment_checks_the_registry
    (df : DataFrame) (items : list cell) (gs : list (option geometry))
    (epsg : Z) :
  mapM from_shapely_item items = Ok gs ->
  List.length gs = List.length (rows df) ->
  (epsg_known epsg = true ->
   exists gdf,
     GeoDataFrame_new df items epsg = Ok gdf /\
     crs gdf = epsg /\
     map geom (features gdf) = gs) /\
  (epsg_known epsg = false ->
   GeoDataFrame_new df items epsg = Raise (CRSError epsg)).
Proof.
  intros Hgs Hlen. unfold GeoDataFrame_new, CRS_from_epsg.
  rewrite Hgs; simpl. split; intros ->; simpl.
  - eexists. split; [reflexivity|]. simpl.
    split; [reflexivity | apply map_geom_attach, Hlen].
  - reflexivity.
Qed.

(** The features a build makes do not depend on the code: with another
    code of the registry the same features come out under the other tag,
    and with a code the registry lacks no build returns. *)
Lemma build_features_independent_of_code
    (df : DataFrame) (mode : geom_mode) (e1 e2 : Z) (g1 : GeoDataFrame) :
  build df mode e1 = Ok g1 ->
  (epsg_known e2 = true ->
   build df mode e2 = Ok (mkGDF (property_columns g1) (features g1) e2)) /\
  (epsg_known e2 = false -> exists err, build df mode e2 = Raise err).
Proof.
  intros H. destruct mode as [x y|w]; simpl in *.
  - destruct (make_gdf_from_xy_ok_inv df x y e1 g1 H) as [Hx Hy].
    destruct (make_gdf_from_xy_run df x y Hx Hy) as [gx [gy [_ [_ E]]]].
    rewrite E in *. unfold CRS_from_epsg in *.
    destruct (epsg_known e1); simpl in H; [|discriminate].
    inversion H; subst g1; simpl.
    split; intros ->; simpl; [reflexivity | eexists; reflexivity].
  - destruct (make_gdf_from_wkt_ok_inv df w e1 g1 H) as [Hw Hrows].
    rewrite (make_gdf_from_wkt_run df w e1 Hw Hrows) in H.
    rewrite (make_gdf_from_wkt_run df w e2 Hw Hrows).
    unfold CRS_from_epsg in *.
    destruct (epsg_known e1); simpl in H; [|discriminate].
    inversion H; subst g1; simpl.
    split; intros ->; simpl; [reflexivity | eexists; reflexivity].
Qed.

End Assignment.

(** C9 (as stated) fails: 99999 is a positive code that the sample
    registry does not have, and tagging one point with it raises. *)
Lemma crs_assignment_never_fails_counterexample :
  0 < 99999 /\
  epsg_known (Backend := Sample.backend) 99999 = false /\
  GeoDataFrame_new (lib := Sample.backend)
    (mkDF [py "n"] [mkRow 0 [(py "n", CInt 1)]])
    [CGeom (Point (float_of_Z 1, float_of_Z 2))] 99999
  = Raise (CRSError 99999) /\
  make_gdf_from_xy (lib := Sample.backend) Sample.lonlat_table
                   (py "lon") (py "lat") 99999
  = Raise (CRSError 99999).
Proof. repeat split. Qed.

Lemma crs_assignment_checks_the_registry_witness :
  exists gdf,
    GeoDataFrame_new (lib := Sample.backend)
      (mkDF [py "n"] [mkRow 0 [(py "n", CInt 1)]])
      [CGeom (Point (float_of_Z 1, float_of_Z 2))] 2056 = Ok gdf /\
    crs gdf = 2056 /\
    map geom (features gdf) = [Some (Point (float_of_Z 1, float_of_Z 2))].
Proof.
  apply (crs_assignment_checks_the_registry (lib := Sample.backend)
           (mkDF [py "n"] [mkRow 0 [(py "n", CInt 1)]])
           [CGeom (Point (float_of_Z 1, float_of_Z 2))]
           [Some (Point (float_of_Z 1, float_of_Z 2))] 2056);
    reflexivity.
Defined.

(** ** Reprojection *)

Section Reprojection.

Context {lib : Backend}.

Lemma to_crs_same_code (gdf out : GeoDataFrame) :
  to_crs gdf (crs gdf) = Ok out -> out = gdf.
Proof.
  unfold to_crs, CRS_from_epsg.
  destruct (epsg_known (crs gdf)); simpl; [|discriminate].
  rewrite Z.eqb_refl. intros H; inversion H; reflexivity.
Qed.

(** C6: reprojecting to the code the collection already has is the
    identity.  The step of the script does nothing when the two codes are
    equal and returns the very collection, so every feature, geometry and
    coordinate is the one that went in; [to_crs] itself, when it returns
    for the collection's own code, returns the collection unchanged. *)
Theorem reproject_same_code_is_identity (gdf : GeoDataFrame) :
  reproject gdf (crs gdf) (crs gdf) = Ok gdf /\
  (forall code, reproject gdf code code = Ok gdf) /\
  (forall out, to_crs gdf (crs gdf) = Ok out ->
               out = gdf /\ map geom (features out) = map geom (features gdf)).
Proof.
  unfold reproject. split; [|split].
  - rewrite Z.eqb_refl; reflexivity.
  - intros code. rewrite Z.eqb_refl; reflexivity.
  - intros out H. apply to_crs_same_code in H. subst out.
    split; reflexivity.
Qed.

End Reprojection.

(** With two different codes the coordinates do change. *)
Example reproject_other_code_moves :
  exists out,
    reproject (lib := Sample.backend) Sample.mercator_point 3857 4326 = Ok out /\
    map geom (features out) = [Some (Point (float_of_Z 4, float_of_Z 4))].
Proof. eexists. split; reflexivity. Qed.

(** ** The encoder *)

(** *** Printable text *)










(** *** [json.dumps] on lists and dicts *)


Section Dumps.

Context {lib : Backend}.








End Dumps.

(** *** The text of a collection *)






Section CollectionText.

Context {lib : Backend}.


End CollectionText.

(** *** Bytes *)


(** *** What the encoder reads of a collection *)





Section Serializable.

Context {lib : Backend}.








End Serializable.

(** *** The claims on the encoder *)

Section EncoderClaims.

Context {lib : Backend}.




End EncoderClaims.

(** *** The sample backend prints floats in printable ASCII *)










(** ** From the table to the bytes *)

Lemma has_duplicates_NoDup (cols : list pystr) :
  NoDup cols -> has_duplicates cols = false.
Proof.
  induction 1 as [|c cols Hc _ IH]; simpl; [reflexivity|].
  rewrite IH, orb_false_r.
  destruct (contains c cols) eqn:E; [|reflexivity].
  apply contains_In in E. contradiction.
Qed.



Section EndToEnd.

Context {lib : Backend}.







End EndToEnd.

(** The coordinate-pair scenario: of the two rows the one with text for
    a longitude is dropped, and the other is written as one point. *)
Example lonlat_scenario :
  convert (lib := Sample.backend) Sample.lonlat_table
          (XYMode (py "lon") (py "lat")) 4326 4326
  = Ok (ascii_bytes
          (q "{'type': 'FeatureCollection', 'features': [{'type': 'Feature', 'properties': {'lon': 7.5, 'lat': 46.25}, 'geometry': {'type': 'Point', 'coordinates': [7.5, 46.25]}}]}")).
Proof. vm_compute. reflexivity. Qed.

(** * The script around the builders *)

(** ** Searching lists *)

Lemma find_split {A} (p : A -> bool) (l : list A) (a : A) :
  find p l = Some a ->
  exists before after,
    l = before ++ a :: after /\ p a = true /\
    forall b, In b before -> p b = false.
Proof.
  induction l as [|x l IH]; simpl; [discriminate|].
  destruct (p x) eqn:Ex.
  - intros H; inversion H; subst. exists [], l.
    split; [reflexivity|]. split; [exact Ex | intros b []].
  - intros H. destruct (IH H) as [before [after [-> [Ha Hb]]]].
    exists (x :: before), after. split; [reflexivity|]. split; [exact Ha|].
    intros b [<-|Hin]; [exact Ex | apply Hb, Hin].
Qed.

Lemma find_none_all {A} (p : A -> bool) (l : list A) :
  find p l = None -> forall a, In a l -> p a = false.
Proof. intros H a Ha. exact (find_none p l H a Ha). Qed.

(** [index] returns the position of the first element equal to the
    value: the list splits there, and nothing before is equal to it. *)
Lemma list_index_split (c : pystr) (l : list pystr) (i : nat) :
  list_index c l = Some i ->
  exists before after,
    l = before ++ c :: after /\ List.length before = i /\ ~ In c before.
Proof.
  revert i. induction l as [|k l IH]; simpl; intros i H; [discriminate|].
  destruct (pystr_eqb k c) eqn:E.
  - apply pystr_eqb_eq in E; subst k. inversion H; subst.
    exists [], l. repeat split; auto.
  - destruct (list_index c l) as [j|]; simpl in H; [|discriminate].
    inversion H; subst. destruct (IH j eq_refl) as [before [after [-> [Hlen Hnot]]]].
    exists (k :: before), after. repeat split; simpl; auto.
    intros [Hk|Hin]; [|exact (Hnot Hin)].
    subst k. rewrite pystr_eqb_refl in E. discriminate.
Qed.

Lemma list_index_found (c : pystr) (l : list pystr) :
  In c l -> exists i, list_index c l = Some i.
Proof.
  induction l as [|k l IH]; simpl; [intros []|].
  intros H. destruct (pystr_eqb k c) eqn:E; [eexists; reflexivity|].
  destruct H as [->|H]; [rewrite pystr_eqb_refl in E; discriminate|].
  destruct (IH H) as [i ->]. eexists; reflexivity.
Qed.


Lemma nth_error_middle {A} (before after : list A) (a : A) :
  nth_error (before ++ a :: after) (List.length before) = Some a.
Proof. induction before; simpl; auto. Qed.

Lemma map_split_at {A B} (f : A -> B) (l : list A) (before after : list B)
    (b : B) :
  map f l = before ++ b :: after ->
  exists l1 a l2,
    l = l1 ++ a :: l2 /\ map f l1 = before /\ f a = b /\ map f l2 = after.
Proof.
  revert before. induction l as [|x l IH]; intros [|y before] H;
    simpl in H; try discriminate.
  - inversion H; subst. exists [], x, l. repeat split.
  - inversion H; subst.
    destruct (IH before H2) as [l1 [a [l2 [-> [H1 [Ha Hl2]]]]]].
    exists (x :: l1), a, l2. repeat split; simpl; congruence.
Qed.

(** ** The guesses of [detect_xy_columns] *)

Section Detect.

Variable lower : pystr -> pystr.

Lemma first_guess_ok (cols cands : list pystr) :
  exists guess,
    first_guess cols (map lower cols) cands = Some guess /\
    guess_ok lower cols cands guess.
Proof.
  unfold first_guess.
  destruct (find (fun c => contains c (map lower cols)) cands) as [c|] eqn:Ef.
  - destruct (find_split _ _ _ Ef) as [before [after [Hc [Hin Hbefore]]]].
    apply contains_In in Hin.
    destruct (list_index_found c _ Hin) as [i Hi]. rewrite Hi.
    destruct (list_index_split c _ i Hi) as [lb [la [Hsplit [Hlen Hnot]]]].
    destruct (map_split_at lower cols lb la c Hsplit)
      as [cols_before [col [cols_after [Hcols [Hlb [Hcol Hla]]]]]].
    assert (Hnth : nth_error cols i = Some col).
    { rewrite Hcols, <- Hlen, <- Hlb, length_map. apply nth_error_middle. }
    rewrite Hnth. exists (Some col). split; [reflexivity|].
    exists before, c, after, cols_before, cols_after.
    repeat split; try assumption.
    + intros c' Hc' b Hb Hlow.
      specialize (Hbefore c' Hc'). simpl in Hbefore.
      assert (Hin' : In c' (map lower cols))
        by (rewrite <- Hlow; apply in_map, Hb).
      apply contains_In in Hin'. congruence.
    + intros b Hb Hlow. apply Hnot. rewrite <- Hlb, <- Hlow.
      apply in_map, Hb.
  - exists None. split; [reflexivity|].
    intros b Hb Hin.
    pose proof (find_none_all _ _ Ef (lower b) Hin) as H. simpl in H.
    assert (Hin' : In (lower b) (map lower cols)) by (apply in_map, Hb).
    apply contains_In in Hin'. congruence.
Qed.


Lemma is_first_guess_member (cols cands : list pystr) (col : pystr) :
  is_first_guess lower cols cands col ->
  In col cols /\ In (lower col) cands.
Proof.
  intros [before [c [after [cb [ca [Hc [_ [Hcols [Hlow _]]]]]]]]].
  split.
  - rewrite Hcols. apply in_or_app. right; left; reflexivity.
  - rewrite Hc, Hlow. apply in_or_app. right; left; reflexivity.
Qed.

Lemma detect_xy_columns_inv (cols : list pystr)
    (x_guess y_guess : option pystr) :
  detect_xy_columns lower cols = Some (x_guess, y_guess) ->
  guess_ok lower cols x_candidates x_guess /\
  guess_ok lower cols y_candidates y_guess.
Proof.
  intros H. unfold detect_xy_columns in H.
  destruct (first_guess_ok cols x_candidates) as [xg [Ex Hx]].
  destruct (first_guess_ok cols y_candidates) as [yg [Ey Hy]].
  rewrite Ex, Ey in H. inversion H; subst. auto.
Qed.

(** X2: the two guesses are never the same column: a column name
    cannot be both a longitude-like and a latitude-like name. *)
Theorem detect_xy_columns_distinct (cols : list pystr) (x y : pystr) :
  detect_xy_columns lower cols = Some (Some x, Some y) ->
  x <> y /\ In x cols /\ In y cols.
Proof.
  intros H. destruct (detect_xy_columns_inv cols _ _ H) as [Hx Hy].
  destruct (is_first_guess_member _ _ _ Hx) as [Hxin Hxc].
  destruct (is_first_guess_member _ _ _ Hy) as [Hyin Hyc].
  split; [|split; assumption].
  intros ->. revert Hxc Hyc. generalize (lower y) as n. intros n Hxc Hyc.
  simpl in Hxc, Hyc.
  repeat match goal with
         | H : _ \/ _ |- _ => destruct H
         | H : False |- _ => destruct H
         end;
    subst; discriminate.
Qed.

End Detect.

Lemma detect_xy_columns_distinct_witness :
  py "x" <> py "Lat" /\
  In (py "x") [py "Lat"; py "LON"; py "x"; py "name"].
Proof.
  destruct (detect_xy_columns_distinct ascii_lower
              [py "Lat"; py "LON"; py "x"; py "name"] (py "x") (py "Lat")
              eq_refl) as [Hne [Hx _]].
  split; assumption.
Defined.

(** ** The select boxes *)

Lemma df_empty_false_columns (df : DataFrame) :
  df_empty df = false -> columns df <> [].
Proof.
  unfold df_empty. destruct (rows df), (columns df); discriminate.
Qed.

Lemma selectbox_nth (cols : list pystr) (i : nat) (c : pystr) :
  nth_error cols i = Some c -> selectbox cols i = Some (Some c).
Proof.
  intros H. unfold selectbox. destruct cols as [|k cols].
  - destruct i; discriminate.
  - rewrite H. reflexivity.
Qed.

Lemma selectbox_guess (cols : list pystr) (g : pystr) (fallback : nat) :
  In g cols ->
  exists i, guess_index cols (Some g) fallback = Some i /\
            selectbox cols i = Some (Some g).
Proof.
  intros Hin. unfold guess_index.
  rewrite (proj2 (contains_In g cols) Hin).
  destruct (list_index_found g cols Hin) as [i Hi].
  exists i. split; [exact Hi|].
  destruct (list_index_split g cols i Hi) as [before [after [-> [<- _]]]].
  apply selectbox_nth, nth_error_middle.
Qed.



Section Selections.

Variable lower : pystr -> pystr.

(** X3: the two select boxes of the coordinate-pair mode, on a table
    that passed the empty check.  The x box starts on the x guess, or on
    the first column when there is none; the y box starts on the y guess,
    or on the second column when there is none.  With no y guess and a
    table of one column the index 1 given to the y box is not a position
    and the box raises; in every other case both boxes start on columns
    of the table, so the column check of the builder passes. *)
Theorem xy_selection_outcome (df : DataFrame)
    (x_guess y_guess : option pystr) :
  df_empty df = false ->
  detect_xy_columns lower (columns df) = Some (x_guess, y_guess) ->
  xy_selection lower (columns df)
  = match (match y_guess with
           | Some g => Some g
           | None => nth_error (columns df) 1
           end) with
    | Some y =>
        Some (Some (match x_guess with
                    | Some g => g
                    | None => hd [] (columns df)
                    end),
              Some y)
    | None => None
    end /\
  (xy_selection lower (columns df) = None <->
   y_guess = None /\ List.length (columns df) = 1%nat) /\
  (forall x y,
      xy_selection lower (columns df) = Some (Some x, Some y) ->
      contains x (columns df) = true /\ contains y (columns df) = true).
Proof.
  intros Hne Hdet. apply df_empty_false_columns in Hne.
  destruct (detect_xy_columns_inv lower _ _ _ Hdet) as [Hx Hy].
  assert (Hform :
    xy_selection lower (columns df)
    = match (match y_guess with
             | Some g => Some g
             | None => nth_error (columns df) 1
             end) with
      | Some y =>
          Some (Some (match x_guess with
                      | Some g => g
                      | None => hd [] (columns df)
                      end),
                Some y)
      | None => None
      end).
  { unfold xy_selection. rewrite Hdet.
    assert (Hxbox : exists i,
               guess_index (columns df) x_guess 0 = Some i /\
               selectbox (columns df) i
               = Some (Some (match x_guess with
                             | Some g => g
                             | None => hd [] (columns df)
                             end))).
    { destruct x_guess as [g|].
      - apply selectbox_guess.
        apply (is_first_guess_member lower _ _ _ Hx).
      - exists 0%nat. split; [reflexivity|].
        destruct (columns df) as [|k cols]; [contradiction|reflexivity]. }
    destruct Hxbox as [i [-> ->]].
    destruct y_guess as [g|].
    - destruct (selectbox_guess (columns df) g 1) as [j [-> ->]];
        [apply (is_first_guess_member lower _ _ _ Hy) | reflexivity].
    - cbn [guess_index]. unfold selectbox.
      destruct (columns df) as [|k cols]; [contradiction|].
      destruct (nth_error (k :: cols) 1); reflexivity. }
  split; [exact Hform|]. split.
  - rewrite Hform. destruct y_guess as [g|]; [split; [discriminate | intros [H _]; discriminate]|].
    destruct (columns df) as [|k [|k' cols]]; simpl;
      [contradiction | split; auto | split; [discriminate | intros [_ H]; discriminate]].
  - intros x y H. rewrite Hform in H.
    assert (Hxin : In x (columns df)).
    { destruct (match y_guess with Some g => Some g | None => nth_error (columns df) 1 end);
        [|discriminate].
      inversion H; subst. destruct x_guess as [g|].
      - apply (is_first_guess_member lower _ _ _ Hx).
      - destruct (columns df); [contradiction | left; reflexivity]. }
    assert (Hyin : In y (columns df)).
    { destruct y_guess as [g|].
      - inversion H; subst. apply (is_first_guess_member lower _ _ _ Hy).
      - destruct (nth_error (columns df) 1) as [c|] eqn:E; [|discriminate].
        inversion H; subst. apply (nth_error_In _ _ E). }
    split; apply contains_In; assumption.
Qed.


End Selections.

Lemma xy_selection_outcome_witness :
  xy_selection ascii_lower [py "name"] = None /\
  xy_selection ascii_lower (columns Sample.lonlat_table)
  = Some (Some (py "lon"), Some (py "lat")).
Proof.
  split.
  - apply (proj1 (proj2 (xy_selection_outcome ascii_lower
                           (mkDF [py "name"] [mkRow 0 [(py "name", CInt 1)]])
                           None None eq_refl eq_refl))).
    split; reflexivity.
  - reflexivity.
Defined.


(** In the sample table the box starts on the column ["wkt"]. *)
Example wkt_selection_sample :
  wkt_selection ascii_lower (columns Sample.wkt_table) = Some (Some (py "wkt")).
Proof. reflexivity. Qed.

(** ** The kind of the uploaded file *)

Lemma rsplit_dot_some (s a b : pystr) :
  rsplit_dot s = Some (a, b) -> s = a ++ 46%N :: b /\ ~ In 46%N b.
Proof.
  revert a b. induction s as [|c s IH]; simpl; intros a b H; [discriminate|].
  destruct (rsplit_dot s) as [[a' b']|] eqn:E.
  - inversion H; subst. destruct (IH a' b eq_refl) as [-> Hb].
    split; [reflexivity | exact Hb].
  - destruct (N.eqb_spec c 46); [|discriminate].
    inversion H; subst. split; [reflexivity|].
    clear IH H. revert E. induction b as [|d b IHb]; simpl; [auto|].
    destruct (rsplit_dot b) as [[a' b']|]; [discriminate|].
    destruct (N.eqb_spec d 46); [discriminate|].
    intros _ [Hd|Hin]; [congruence | exact (IHb eq_refl Hin)].
Qed.

Lemma rsplit_dot_none (s : pystr) : rsplit_dot s = None -> ~ In 46%N s.
Proof.
  induction s as [|c s IH]; simpl; [auto|].
  destruct (rsplit_dot s) as [[a b]|]; [discriminate|].
  destruct (N.eqb_spec c 46); [discriminate|].
  intros _ [Hc|Hin]; [congruence | exact (IH eq_refl Hin)].
Qed.

Lemma rsplit_dot_no_dot (s : pystr) : ~ In 46%N s -> rsplit_dot s = None.
Proof.
  induction s as [|c s IH]; simpl; [reflexivity|].
  intros H. rewrite IH by (intros Hin; apply H; right; exact Hin).
  destruct (N.eqb_spec c 46); [|reflexivity].
  exfalso; apply H; left; congruence.
Qed.

Lemma rsplit_dot_app (a b : pystr) :
  ~ In 46%N b -> rsplit_dot (a ++ 46%N :: b) = Some (a, b).
Proof.
  intros Hb. induction a as [|c a IH]; simpl.
  - rewrite (rsplit_dot_no_dot b Hb). reflexivity.
  - rewrite IH. reflexivity.
Qed.

Section FileKind.

Variable lower : pystr -> pystr.

(** X5: the reader of the uploaded file.  The file type is the part of
    the lowered name after its last dot, or the whole lowered name when
    it has no dot, so it never holds a dot; the file is read as a
    spreadsheet exactly when the lowered name is [xlsx] or [xls] or ends
    in a dot followed by one of them, and as delimited text in every
    other case. *)
Theorem choose_reader_by_last_extension (name : pystr) :
  ~ In 46%N (filetype lower name) /\
  (choose_reader lower name = ExcelReader <->
   exists ext,
     In ext [py "xlsx"; py "xls"] /\
     (lower name = ext \/ exists stem, lower name = stem ++ py "." ++ ext)) /\
  (choose_reader lower name = CsvReader <->
   choose_reader lower name <> ExcelReader).
Proof.
  unfold choose_reader, filetype, last_part.
  set (L := lower name). split; [|split].
  - destruct (rsplit_dot L) as [[a b]|] eqn:E.
    + apply (rsplit_dot_some L a b E).
    + apply rsplit_dot_none, E.
  - split.
    + destruct (contains _ _) eqn:Ec; [|discriminate]. intros _.
      apply contains_In in Ec.
      destruct (rsplit_dot L) as [[a b]|] eqn:E.
      * exists b. split; [exact Ec|]. right. exists a.
        apply (rsplit_dot_some L a b E).
      * exists L. split; [exact Ec | left; reflexivity].
    + intros [ext [Hext [HL|[stem HL]]]]; rewrite HL.
      * assert (Hn : rsplit_dot ext = None).
        { destruct Hext as [<-|[<-|[]]]; reflexivity. }
        rewrite Hn. rewrite (proj2 (contains_In ext _) Hext). reflexivity.
      * assert (Hn : ~ In 46%N ext).
        { destruct Hext as [<-|[<-|[]]]; simpl; intuition discriminate. }
        change (stem ++ py "." ++ ext) with (stem ++ 46%N :: ext).
        rewrite (rsplit_dot_app stem ext Hn).
        rewrite (proj2 (contains_In ext _) Hext). reflexivity.
  - destruct (contains _ _); split; congruence.
Qed.

End FileKind.

(** A name in capitals with two dots is read by its last extension; a
    name that is only [xls] counts as a spreadsheet. *)
Example choose_reader_samples :
  choose_reader ascii_lower (py "Sites.2024.XLSX") = ExcelReader /\
  choose_reader ascii_lower (py "sites.xlsx.csv") = CsvReader /\
  choose_reader ascii_lower (py "xls") = ExcelReader.
Proof. repeat split. Qed.

(** ** The EPSG codes of the two CRS boxes *)

(** X6: whatever entry of a CRS box is selected, the code is found (the
    table has a code for every entry but the last, which takes the number
    input) and, the number input being at least 1000, the code handed to
    the builders is at least 1000. *)
Theorem chosen_epsg_found (label : pystr) (entered : Z) :
  In label epsg_labels ->
  1000 <= entered ->
  exists code,
    chosen_epsg label entered = Some code /\
    1000 <= code /\
    (label = Other /\ code = entered \/ In (label, code) COMMON_EPSG).
Proof.
  intros Hin Hmin. unfold epsg_labels in Hin. simpl in Hin.
  destruct Hin as [<-|[<-|[<-|[<-|[<-|[]]]]]].
  - exists 4326. split; [reflexivity|]. split; [lia|]. right. simpl; auto.
  - exists 3857. split; [reflexivity|]. split; [lia|]. right. simpl; auto.
  - exists 2056. split; [reflexivity|]. split; [lia|]. right. simpl; auto.
  - exists 3035. split; [reflexivity|]. split; [lia|]. right. simpl; auto.
  - exists entered. split; [reflexivity|]. split; [exact Hmin|]. left. auto.
Qed.

Lemma chosen_epsg_found_witness :
  exists code,
    chosen_epsg (py "CH LV95 (EPSG:2056)") 1000 = Some code /\ 1000 <= code.
Proof.
  destruct (chosen_epsg_found (py "CH LV95 (EPSG:2056)") 1000) as [code [H1 [H2 _]]].
  - right; right; left; reflexivity.
  - lia.
  - exists code. split; assumption.
Defined.

(** * More on the builders *)

Section WKTBuilder.

Context {lib : Backend}.

(** X7: in well-known-text mode, when the column is not a column of the
    table, the build raises [ValueError] with a message that quotes the
    column name; no cell is looked at, so the outcome is the same for
    every content of the table, even cells that are not WKT. *)
Theorem wkt_build_missing_column_raises
    (df : DataFrame) (wkt_col : pystr) (epsg_in : Z) :
  contains wkt_col (columns df) = false ->
  forall rs,
    make_gdf_from_wkt (mkDF (columns df) rs) wkt_col epsg_in
    = Raise (ValueError (py "WKT column '" ++ wkt_col ++ py "' not found.")).
Proof.
  intros H rs. unfold make_gdf_from_wkt; simpl. rewrite H. reflexivity.
Qed.

Lemma wkt_ok_notna (w : pystr) (r : Row) :
  wkt_raises (row_get w r) = false ->
  wkt_ok w r = notna (row_get w r).
Proof.
  unfold wkt_raises, wkt_ok, load_wkt_cell, parsed_geometry.
  destruct (row_get w r) as [t|z|f| |g]; simpl; try discriminate;
    try reflexivity.
  - destruct (wkt_loads t); [reflexivity | discriminate].
  - destruct f; simpl; try discriminate; reflexivity.
Qed.

(** X8: in well-known-text mode, on a well-formed table that has the
    column, when the reader accepts every cell that is not missing and
    the registry has the code, the build returns: it drops exactly the
    rows whose cell is missing and keeps the others in their order, one
    feature per row with the label of the row and the geometry the
    reader returned for its text. *)
Theorem wkt_build_keeps_rows_with_text
    (df : DataFrame) (wkt_col : pystr) (epsg_in : Z) :
  wf_df df ->
  contains wkt_col (columns df) = true ->
  (forall r, In r (rows df) -> wkt_raises (row_get wkt_col r) = false) ->
  epsg_known epsg_in = true ->
  exists gdf,
    make_gdf_from_wkt df wkt_col epsg_in = Ok gdf /\
    crs gdf = epsg_in /\
    Forall2 (fun r f =>
               fid f = label r /\
               exists t g, row_get wkt_col r = CStr t /\
                           wkt_loads t = Some g /\
                           geom f = Some g)
            (filter (fun r => notna (row_get wkt_col r)) (rows df))
            (features gdf).
Proof.
  intros _ Hw Hrows Hknown.
  rewrite (make_gdf_from_wkt_run df wkt_col epsg_in Hw Hrows).
  unfold CRS_from_epsg. rewrite Hknown. simpl.
  eexists. split; [reflexivity|]. split; [reflexivity|]. simpl.
  rewrite (filter_ext_in (fun r => notna (row_get wkt_col r)) (wkt_ok wkt_col))
    by (intros r Hr; symmetry; apply wkt_ok_notna, Hrows, Hr).
  apply Forall2_map_right. intros r Hr.
  apply filter_In in Hr. destruct Hr as [_ Hok].
  split; [reflexivity|].
  unfold wkt_feature, wkt_ok, parsed_geometry in *. simpl.
  destruct (row_get wkt_col r) as [t|z|f| |g]; try discriminate.
  destruct (wkt_loads t) as [g|] eqn:Eg; [|discriminate].
  exists t, g. auto.
Qed.

Lemma mapM_first_raise {A B} (f : A -> result B) (good : list A) (a : A)
    (rest : list A) (e : exception) :
  (forall x, In x good -> exists b, f x = Ok b) ->
  f a = Raise e ->
  mapM f (good ++ a :: rest) = Raise e.
Proof.
  intros Hgood Ha. induction good as [|x good IH]; simpl.
  - rewrite Ha. reflexivity.
  - destruct (Hgood x (or_introl eq_refl)) as [b ->]. simpl.
    rewrite IH by (intros y Hy; apply Hgood; right; exact Hy).
    reflexivity.
Qed.

(** X9: in well-known-text mode the exception of a failed build is the
    one the reader raises on the first row, in the order of the table,
    that it does not accept; the rows after it are not read and the CRS
    is not looked up. *)
Theorem wkt_build_raises_first_bad_row
    (df : DataFrame) (wkt_col : pystr) (epsg_in : Z)
    (good : list Row) (bad : Row) (rest : list Row) (e : exception) :
  contains wkt_col (columns df) = true ->
  rows df = good ++ bad :: rest ->
  (forall r, In r good -> wkt_raises (row_get wkt_col r) = false) ->
  load_wkt_cell (row_get wkt_col bad) = Raise e ->
  make_gdf_from_wkt df wkt_col epsg_in = Raise e.
Proof.
  intros Hw Hrows Hgood Hbad. unfold make_gdf_from_wkt, copy, getitem.
  rewrite Hw, Hrows, map_app. simpl.
  rewrite (mapM_first_raise load_wkt_cell _ _ _ e); [reflexivity| |exact Hbad].
  intros c Hc. apply in_map_iff in Hc. destruct Hc as [r [<- Hr]].
  exists (loaded (row_get wkt_col r)). apply load_wkt_cell_ok, Hgood, Hr.
Qed.

End WKTBuilder.

Lemma wkt_build_missing_column_raises_witness :
  make_gdf_from_wkt (lib := Sample.backend)
    (mkDF (columns Sample.bad_wkt_table) (rows Sample.bad_wkt_table))
    (py "geom") 99999
  = Raise (ValueError (py "WKT column 'geom' not found.")).
Proof.
  apply (wkt_build_missing_column_raises (lib := Sample.backend)
           Sample.bad_wkt_table (py "geom") 99999).
  reflexivity.
Defined.

Lemma wkt_build_keeps_rows_with_text_witness :
  exists gdf,
    make_gdf_from_wkt (lib := Sample.backend) Sample.wkt_table
                      (py "wkt") 2056 = Ok gdf /\
    crs gdf = 2056 /\
    map fid (features gdf) = [0; 2].
Proof.
  destruct (wkt_build_keeps_rows_with_text (lib := Sample.backend)
              Sample.wkt_table (py "wkt") 2056 sample_wkt_table_wf eq_refl)
    as [gdf [E [Hcrs _]]].
  - intros r [<-|[<-|[<-|[]]]]; reflexivity.
  - reflexivity.
  - exists gdf. split; [exact E|]. split; [exact Hcrs|].
    vm_compute in E. inversion E. reflexivity.
Defined.

Lemma wkt_build_raises_first_bad_row_witness :
  make_gdf_from_wkt (lib := Sample.backend) Sample.bad_wkt_table
                    (py "wkt") 99999
  = Raise (WKTReadingError (py "not wkt")).
Proof.
  apply (wkt_build_raises_first_bad_row (lib := Sample.backend)
           Sample.bad_wkt_table (py "wkt") 99999
           [Sample.text_row 0 [("name", "a"); ("wkt", "POINT (1 2)")]%string]
           (Sample.text_row 1 [("name", "b"); ("wkt", "not wkt")]%string)
           []).
  - reflexivity.
  - reflexivity.
  - intros r [<-|[]]. reflexivity.
  - reflexivity.
Defined.

(** * More on reprojection and the download *)


Lemma map_coords_id (g : geometry) : map_coords (fun c => c) g = g.
Proof.
  assert (H1 : forall l : list coord, map (fun c => c) l = l)
    by apply map_id.
  assert (H2 : forall l : list (list coord), map (map (fun c => c)) l = l).
  { intros l. rewrite (map_ext _ (fun x => x) H1). apply map_id. }
  assert (H3 : forall l : list (list (list coord)),
             map (map (map (fun c => c))) l = l).
  { intros l. rewrite (map_ext _ (fun x => x) H2). apply map_id. }
  destruct g; simpl; rewrite ?H1, ?H2, ?H3; reflexivity.
Qed.

Lemma map_coords_compose (f h : coord -> coord) (g : geometry) :
  map_coords f (map_coords h g) = map_coords (fun c => f (h c)) g.
Proof.
  destruct g; simpl; rewrite ?map_map; try reflexivity; f_equal.
  - apply map_ext; intros; apply map_map.
  - apply map_ext; intros; apply map_map.
  - apply map_ext; intros l. rewrite map_map.
    apply map_ext; intros; apply map_map.
Qed.

Section MoreReprojection.

Context {lib : Backend}.



Lemma build_ok_crs (df : DataFrame) (mode : geom_mode) (e : Z)
    (gdf : GeoDataFrame) :
  build df mode e = Ok gdf ->
  crs gdf = e /\
  List.length (features gdf)
  = List.length (filter (survives mode) (rows df)).
Proof.
  intros H. destruct mode as [x y|w]; simpl in H.
  - destruct (make_gdf_from_xy_ok_shape df x y e gdf H)
      as [_ [gx [gy [_ [_ ->]]]]].
    simpl. rewrite length_map. auto.
  - destruct (make_gdf_from_wkt_ok_shape df w e gdf H) as [_ ->].
    simpl. rewrite length_map. auto.
Qed.

(** The features with their geometries mapped by [f]. *)
Lemma to_crs_as_map (gdf out : GeoDataFrame) (code : Z) :
  to_crs gdf code = Ok out ->
  out = mkGDF (property_columns gdf)
              (map (fun f =>
                      mkFeature (fid f) (properties f)
                        (option_map
                           (map_coords
                              (fun c => if crs gdf =? code then c
                                        else transform (crs gdf) code c))
                           (geom f)))
                   (features gdf))
              code.
Proof.
  unfold to_crs, CRS_from_epsg.
  destruct (epsg_known code); simpl; [|discriminate].
  destruct (crs gdf =? code) eqn:E; intros H; injection H as <-.
  - apply Z.eqb_eq in E. destruct gdf as [cols feats tag]; simpl in *.
    subst tag. f_equal.
    rewrite <- (map_id feats) at 1. apply map_ext.
    intros [i props [g|]]; simpl; [rewrite map_coords_id|]; reflexivity.
  - reflexivity.
Qed.

(** X12: the collection behind the download button is always tagged
    EPSG:4326 and has the features of the build, with their labels and
    properties, in the same order; each coordinate pair has gone from the
    input CRS to the output CRS (unless the two codes are equal) and from
    there to EPSG:4326 (unless the output code is 4326): the download
    passes through the output CRS, it is not transformed from the input
    CRS in one step. *)
Theorem download_collection_route
    (df : DataFrame) (mode : geom_mode) (epsg_in epsg_out : Z)
    (out : GeoDataFrame) :
  download_collection df mode epsg_in epsg_out = Ok out ->
  exists built,
    build df mode epsg_in = Ok built /\
    crs out = 4326 /\
    property_columns out = property_columns built /\
    features out
    = map (fun f =>
             mkFeature (fid f) (properties f)
               (option_map (map_coords (route epsg_in epsg_out)) (geom f)))
          (features built).
Proof.
  unfold download_collection. intros H.
  destruct (build df mode epsg_in) as [built|] eqn:Eb; [|discriminate].
  cbn [bind] in H. exists built. split; [reflexivity|].
  destruct (build_ok_crs df mode epsg_in built Eb) as [Hcrs _].
  destruct (reproject built epsg_in epsg_out) as [mid|] eqn:Er; [|discriminate].
  cbn [bind] in H.
  assert (Hmid : mid = mkGDF (property_columns built)
            (map (fun f => mkFeature (fid f) (properties f)
                     (option_map
                        (map_coords
                           (fun c => if epsg_in =? epsg_out then c
                                     else transform epsg_in epsg_out c))
                        (geom f)))
                 (features built))
            epsg_out).
  { unfold reproject in Er. destruct (epsg_in =? epsg_out) eqn:E; simpl in Er.
    - inversion Er; subst mid. apply Z.eqb_eq in E.
      destruct built as [cols feats tag]; simpl in *. subst. f_equal.
      rewrite <- (map_id feats) at 1. apply map_ext.
      intros [i props [g|]]; simpl; [rewrite map_coords_id|]; reflexivity.
    - rewrite (to_crs_as_map built mid epsg_out Er), Hcrs, E. reflexivity. }
  rewrite (to_crs_as_map mid out 4326 H). subst mid. simpl.
  repeat split. rewrite map_map. apply map_ext.
  intros [i props [g|]]; simpl; [|reflexivity].
  rewrite map_coords_compose. unfold route. reflexivity.
Qed.

End MoreReprojection.


Lemma download_collection_route_witness :
  exists built,
    build (lib := Sample.backend) Sample.lonlat_table
          (XYMode (py "lon") (py "lat")) 3857 = Ok built /\
    List.length (features built) = 1%nat.
Proof.
  destruct (download_collection_route (lib := Sample.backend)
              Sample.lonlat_table (XYMode (py "lon") (py "lat")) 3857 3035
              _ eq_refl) as [built [E _]].
  exists built. split; [exact E|].
  vm_compute in E. inversion E. reflexivity.
Defined.


Lemma filter_all_false {A} (p : A -> bool) (l : list A) :
  (forall a, In a l -> p a = false) -> filter p l = [].
Proof.
  induction l as [|a l IH]; simpl; intros H; [reflexivity|].
  rewrite (H a (or_introl eq_refl)). apply IH.
  intros b Hb. apply H. right; exact Hb.
Qed.

Section Download2.

Context {lib : Backend}.




(** X14: a table of which the build keeps no row is not an error: on a
    well-formed table, when the build returns and the registry has the
    output code and 4326, the script produces the download, and it is
    the empty feature collection. *)
Theorem download_of_no_surviving_row
    (df : DataFrame) (mode : geom_mode) (epsg_in epsg_out : Z)
    (built : GeoDataFrame) :
  wf_df df ->
  build df mode epsg_in = Ok built ->
  (forall r, In r (rows df) -> survives mode r = false) ->
  epsg_known epsg_out = true ->
  epsg_known 4326 = true ->
  features built = [] /\
  convert df mode epsg_in epsg_out
  = Ok (ascii_bytes (q "{'type': 'FeatureCollection', 'features': []}")).
Proof.
  intros [Hnd _] Hbuild Hnone Hout H4326.
  assert (Hshape : exists cols, NoDup cols /\ built = mkGDF cols [] epsg_in).
  { destruct mode as [x y|w]; simpl in Hbuild.
    - destruct (make_gdf_from_xy_ok_shape df x y epsg_in built Hbuild)
        as [_ [gx [gy [_ [_ ->]]]]].
      rewrite (filter_all_false (xy_ok x y) _ Hnone).
      eexists. split; [|reflexivity].
      apply NoDup_filter, Hnd.
    - destruct (make_gdf_from_wkt_ok_shape df w epsg_in built Hbuild) as [_ ->].
      rewrite (filter_all_false (wkt_ok w) _ Hnone).
      eexists. split; [|reflexivity].
      apply NoDup_filter, NoDup_filter, Hnd. }
  destruct Hshape as [cols [Hcols ->]]. split; [reflexivity|].
  unfold convert. rewrite Hbuild. cbn [bind].
  unfold reproject, to_crs, CRS_from_epsg. rewrite Hout, H4326.
  destruct (epsg_in =? epsg_out) eqn:E1; cbn [negb bind crs];
    rewrite ?E1; cbn [bind crs features map property_columns];
    [destruct (epsg_in =? 4326) eqn:E2 | destruct (epsg_out =? 4326) eqn:E2];
    cbn [bind map features property_columns crs];
    unfold to_geojson_bytes, to_json, to_geo_dict;
    cbn [property_columns crs features map];
    rewrite ?E2, (has_duplicates_NoDup cols Hcols); reflexivity.
Qed.

(** The x and y of one feature of the coordinate-pair mode. *)
Lemma xy_feature_numbers (x y : pystr) (gx gy : cell -> cell) (r : Row) :
  coercion gx -> coercion gy ->
  x <> py "geometry" -> y <> py "geometry" ->
  as_float64 (assoc_get x (properties (xy_feature x y gx gy r)))
  = Ok (coerced (row_get x r)) /\
  as_float64 (assoc_get y (properties (xy_feature x y gx gy r)))
  = Ok (coerced (row_get y r)).
Proof.
  intros Hgx Hgy Hx Hy.
  destruct (xy_written_values x y gx gy Hgx Hgy) as [hx [hy [Hhx [Hhy Hval]]]].
  destruct (Hval r) as [Vx Vy].
  unfold xy_feature; cbn [properties].
  rewrite !assoc_get_del_other by congruence.
  fold (row_get x (update_cell y gy (update_cell x gx r))).
  fold (row_get y (update_cell y gy (update_cell x gx r))).
  rewrite Vx, Vy. split; apply coercion_as_float64; assumption.
Qed.

(** X15: in coordinate-pair mode the properties and the geometry of a
    feature agree, and no coordinate is NaN: when neither column is named
    ["geometry"], every feature of the collection is a point whose two
    coordinates are the numbers its x and y properties hold. *)
Theorem xy_build_points_match_properties
    (df : DataFrame) (x_col y_col : pystr) (epsg_in : Z) (gdf : GeoDataFrame) :
  make_gdf_from_xy df x_col y_col epsg_in = Ok gdf ->
  x_col <> py "geometry" ->
  y_col <> py "geometry" ->
  Forall (fun f =>
            exists cx cy,
              geom f = Some (Point (cx, cy)) /\
              as_float64 (assoc_get x_col (properties f)) = Ok cx /\
              as_float64 (assoc_get y_col (properties f)) = Ok cy /\
              isnan cx = false /\ isnan cy = false)
         (features gdf).
Proof.
  intros H Hx Hy.
  destruct (make_gdf_from_xy_ok_shape df x_col y_col epsg_in gdf H)
    as [_ [gx [gy [Hgx [Hgy ->]]]]].
  simpl. apply Forall_forall. intros f Hf.
  apply in_map_iff in Hf. destruct Hf as [r [<- Hr]].
  apply filter_In in Hr. destruct Hr as [_ Hok].
  unfold xy_ok, coercible in Hok. apply andb_true_iff in Hok.
  destruct Hok as [Hokx Hoky]. apply negb_true_iff in Hokx, Hoky.
  destruct (xy_feature_numbers x_col y_col gx gy r Hgx Hgy Hx Hy) as [Ex Ey].
  exists (coerced (row_get x_col r)), (coerced (row_get y_col r)).
  repeat split; assumption.
Qed.

End Download2.


Lemma download_of_no_surviving_row_witness :
  convert (lib := Sample.backend)
    (mkDF [py "lon"; py "lat"]
          [Sample.text_row 0 [("lon", "bad"); ("lat", "46.9")]%string])
    (XYMode (py "lon") (py "lat")) 2056 3857
  = Ok (ascii_bytes (q "{'type': 'FeatureCollection', 'features': []}")).
Proof.
  eapply (download_of_no_surviving_row (lib := Sample.backend)
            (mkDF [py "lon"; py "lat"]
                  [Sample.text_row 0 [("lon", "bad"); ("lat", "46.9")]%string])
            (XYMode (py "lon") (py "lat")) 2056 3857).
  - split; [repeat constructor; simpl; intuition discriminate
           | repeat constructor].
  - vm_compute. reflexivity.
  - intros r [<-|[]]. reflexivity.
  - reflexivity.
  - reflexivity.
Defined.

Lemma xy_build_points_match_properties_witness :
  exists gdf,
    make_gdf_from_xy (lib := Sample.backend) Sample.lonlat_table
                     (py "lon") (py "lat") 4326 = Ok gdf /\
    List.length (features gdf) = 1%nat.
Proof.
  eexists. split; [vm_compute; reflexivity|].
  pose proof (xy_build_points_match_properties (lib := Sample.backend)
                Sample.lonlat_table (py "lon") (py "lat") 4326 _ eq_refl)
    as H.
  assert (Hf := H ltac:(discriminate) ltac:(discriminate)).
  inversion Hf as [|f fs _ Hrest]; subst.
  inversion Hrest. reflexivity.
Defined.


(** * Integer and float columns *)

Section ColumnTypesProofs.

Context {lib : Backend}.





End ColumnTypesProofs.

